(** * NewslyBot: a shallow embedding of [man.py]

    The script is a Streamlit page.  Each user turn runs the page's tail
    (the exit check and the call of [chatbot_response]); the dispatcher
    [chatbot_response] routes the text to the Tavily search client, to the
    Gemini chat session, or to both, and keeps three session stores.

    Python code is embedded as functions of a state-and-exception monad
    [M]: the state is [st.session_state] together with a trace of the
    calls that leave the script; an exception is the outcome [Raise].  The
    outside world (the HTTP server, the chat provider) is an argument of
    type [world].  *)

From Stdlib Require Import ZArith SpecFloat Ascii String.
From stdpp Require Import gmap strings list.

Set Warnings "-register-all".

(** ** Python values

    The values the script stores and formats come from two places: decoded
    JSON ([response.json()]) and Python [str]s.  [JNull] is [None], a
    [float] is an IEEE 754 value.  A [dict] is kept as the list of its
    items; [dict.get] takes the first binding of a key. *)

Inductive json : Type :=
| JNull
| JBool (b : bool)
| JInt (n : Z)
| JFloat (f : spec_float)
| JStr (s : string)
| JList (l : list json)
| JDict (d : list (string * json)).

(** The outcome of evaluating a Python expression: a value, or an
    exception of class [Exception]. *)
Inductive result (A : Type) : Type :=
| Ret (a : A)
| Raise.
Arguments Ret {A} a.
Arguments Raise {A}.

#[export] Instance result_ret : MRet result := @Ret.
#[export] Instance result_bind : MBind result := λ A B f r,
  match r with
  | Ret a => f a
  | Raise => Raise
  end.

(** ** Strings *)

Definition nl : string := String (ascii_of_nat 10) EmptyString.

(** [str.lower] on the letters A-Z.  Text is held as UTF-8 bytes; the
    bytes of a non-ASCII character are all above 127 and stay as they
    are.  The script only tests the lowered text against ASCII keywords.
    Python folds non-ASCII letters too, and two of them give an ASCII
    letter: U+212A gives k, which no keyword has, and U+0130 gives i
    followed by U+0307, where every keyword has a letter after its i.  So
    the tests come out the same. *)
Definition lower_ascii (c : ascii) : ascii :=
  let n := nat_of_ascii c in
  if Nat.leb 65 n && Nat.leb n 90 then ascii_of_nat (n + 32) else c.

Fixpoint lower (s : string) : string :=
  match s with
  | EmptyString => EmptyString
  | String c s' => String (lower_ascii c) (lower s')
  end.

(** [sub in s] for two strings. *)
Fixpoint str_in (sub s : string) : bool :=
  match s with
  | EmptyString => String.prefix sub EmptyString
  | String _ s' => String.prefix sub s || str_in sub s'
  end.

(** The truth value of a string: [bool(s)]. *)
Definition str_nonempty (s : string) : bool :=
  match s with
  | EmptyString => false
  | String _ _ => true
  end.

(** ** Operations on Python values *)

Fixpoint dict_lookup (key : string) (d : list (string * json)) : option json :=
  match d with
  | [] => None
  | (k, v) :: d' => if String.eqb k key then Some v else dict_lookup key d'
  end.

(** [v.get(key, dflt)]: only a [dict] has the method; on every other JSON
    value the attribute lookup raises [AttributeError]. *)
Definition py_get (v : json) (key : string) (dflt : json) : result json :=
  match v with
  | JDict d => Ret (default dflt (dict_lookup key d))
  | _ => Raise
  end.

(** [bool(v)]. *)
Definition py_bool (v : json) : bool :=
  match v with
  | JNull => false
  | JBool b => b
  | JInt n => negb (n =? 0)%Z
  | JFloat f => match f with S754_zero _ => false | _ => true end
  | JStr s => str_nonempty s
  | JList l => match l with [] => false | _ :: _ => true end
  | JDict d => match d with [] => false | _ :: _ => true end
  end.

(** The items of [v[:5]], as the [for] loop sees them.  A list gives its
    first five elements, a string its first five characters (each a
    one-character string); a [dict] cannot be indexed by a slice and the
    other values cannot be subscripted at all. *)
Definition py_slice5 (v : json) : result (list json) :=
  match v with
  | JList l => Ret (take 5 l)
  | JStr s => Ret ((λ c, JStr (String c EmptyString)) <$> take 5 (list_ascii_of_string s))
  | _ => Raise
  end.

(** [isinstance(v, list) and len(v) > 0]. *)
Definition is_nonempty_list (v : json) : bool :=
  match v with
  | JList (_ :: _) => true
  | _ => false
  end.

(** A search hit is a JSON object. *)
Abbreviation hit := (list (string * json)).

(** ** Session state *)

(** One entry of [conversation_memory]: [{"role": ..., "content": ...}]. *)
Record turn : Type := Turn { role : string; content : string }.

(** What leaves the script, in the order it happens. *)
Inductive event : Type :=
| HttpGet (url : string)                        (* requests.get(url) *)
| SendMessage (message : string)                (* chat_session.send_message(message) *)
| CallChatbot (user_input user_id : string)     (* chatbot_response(user_input, user_id) *)
| StWrite (text : string)                       (* st.write(text) *)
| StStop.                                       (* st.stop() *)

Record state : Type := State {
  conversation_memory : list turn;
  user_memory : gmap string (gmap string json);
  tavily_response_memory : gmap string json;
  trace : list event
}.

Definition M (A : Type) : Type := state → state * result A.

#[export] Instance M_ret : MRet M := λ A a st, (st, Ret a).
#[export] Instance M_bind : MBind M := λ A B f c st,
  match c st with
  | (st', Ret a) => f a st'
  | (st', Raise) => (st', Raise)
  end.

Definition lift {A} (r : result A) : M A := λ st, (st, r).

(** [try: body  except Exception: handler].  What [body] did to the state
    before it raised stays done. *)
Definition try_except {A} (body handler : M A) : M A := λ st,
  match body st with
  | (st', Ret a) => (st', Ret a)
  | (st', Raise) => handler st'
  end.

Definition log (e : event) : M unit := λ st,
  (State (conversation_memory st) (user_memory st) (tavily_response_memory st)
         (trace st ++ [e]), Ret ()).

(** ** The outside world *)

(** A [requests.Response]: its status and what [.json()] gives ([None]
    when the body does not decode and [.json()] raises). *)
Record Response : Type := { status_code : Z; json_body : option json }.

(** A reply of the chat provider; [None] when reading [.text] raises. *)
Record GenerateContentResponse : Type := { text : option string }.

(** How the world answers during one turn; [None] is a raised exception. *)
Record world : Type := {
  requests_get : string → option Response;
  chat_reply : string → option GenerateContentResponse
}.

Definition http_get (w : world) (url : string) : M Response :=
  log (HttpGet url);; lift (from_option Ret Raise (requests_get w url)).

Definition response_json (r : Response) : result json :=
  from_option Ret Raise (json_body r).

Definition send_message (w : world) (message : string) : M GenerateContentResponse :=
  log (SendMessage message);; lift (from_option Ret Raise (chat_reply w message)).

Definition response_text (r : GenerateContentResponse) : result string :=
  from_option Ret Raise (text r).

(** ** Session memory store *)

Definition update_memory (user_id key : string) (value : json) : M unit := λ st,
  let um := user_memory st in
  let um := match um !! user_id with
            | None => <[user_id := ∅]> um
            | Some _ => um
            end in
  (State (conversation_memory st) (alter (insert key value) user_id um)
         (tavily_response_memory st) (trace st), Ret ()).

Definition get_user_memory (user_id key : string) : M json := λ st,
  (st, Ret (default JNull (default ∅ (user_memory st !! user_id) !! key))).

Definition set_tavily_response_memory (user_id : string) (value : json) : M unit := λ st,
  (State (conversation_memory st) (user_memory st)
         (<[user_id := value]> (tavily_response_memory st)) (trace st), Ret ()).

Definition get_tavily_response_memory (user_id : string) : M json := λ st,
  (st, Ret (default JNull (tavily_response_memory st !! user_id))).

Definition conversation_memory_append (t : turn) : M unit := λ st,
  (State (conversation_memory st ++ [t]) (user_memory st)
         (tavily_response_memory st) (trace st), Ret ()).

(** ** The fixed strings of the script *)

Definition tavily_error : string := "An error occurred while calling the Tavily API.".
Definition tavily_sorry (query : string) : string :=
  "Sorry, I couldn't fetch information from Tavily for '" +:+ query +:+ "'.".
Definition no_results : string := "❌ No search results found from Tavily.".
Definition generic_failure : string :=
  "An error occurred while generating a response. Please try again later.".
Definition summarize_header : string := "Summarize the following articles:" +:+ nl.
Definition goodbye : string := "Exiting chat. Goodbye! 👋".
Definition chatbot_prefix : string := "🤖 ChatBot: ".
Definition exit_keywords : list string := ["q"; "exit"; "quit"].

(** ** Sample worlds and states *)

Definition two_hits : list hit :=
  [[("title", JStr "A"); ("url", JStr "u1")]; [("title", JStr "B"); ("url", JStr "u2")]].

(** The search returns the given hits; the chat echoes. *)
Definition w_hits (hits : list hit) : world :=
  {| requests_get := λ _,
       Some {| status_code := 200;
               json_body := Some (JDict [("results", JList (JDict <$> hits))]) |};
     chat_reply := λ m, Some {| text := Some ("reply to: " +:+ m) |} |}.

(** The search request raises. *)
Definition w_down : world :=
  {| requests_get := λ _, None;
     chat_reply := λ m, Some {| text := Some ("reply to: " +:+ m) |} |}.

(** The search answers with status 500. *)
Definition w_500 : world :=
  {| requests_get := λ _, Some {| status_code := 500; json_body := None |};
     chat_reply := λ m, Some {| text := Some ("reply to: " +:+ m) |} |}.

(** The search answers 200 with the given value under "results". *)
Definition w_results (v : json) : world :=
  {| requests_get := λ _,
       Some {| status_code := 200; json_body := Some (JDict [("results", v)]) |};
     chat_reply := λ m, Some {| text := Some ("reply to: " +:+ m) |} |}.

(** The search answers 200 with a body that is not JSON. *)
Definition w_bad_body : world :=
  {| requests_get := λ _, Some {| status_code := 200; json_body := None |};
     chat_reply := λ m, Some {| text := Some ("reply to: " +:+ m) |} |}.

(** The chat session raises. *)
Definition w_mute : world :=
  {| requests_get := λ _, None; chat_reply := λ _, None |}.

(** The chat session answers with a response that has no text. *)
Definition w_no_text : world :=
  {| requests_get := λ _, None; chat_reply := λ _, Some {| text := None |} |}.

Definition five_hits : list hit :=
  (λ n, [("title", JInt n); ("url", JStr "u")]) <$> [1; 2; 3; 4; 5]%Z.

Definition st0 : state := State [] ∅ ∅ [].

(** A number is stored as the last results of "user_1". *)
Definition st_number : state := State [] ∅ {["user_1" := JInt 7]} [].
Definition key0 : string := "KEY".
Definition repr0 (v : json) : string := "<value>".

Section Script.

(** The search key, read from the environment when the script starts. *)
Variable tavily_api_key : string.

(** Python's [repr] of a value that is not a [str]; the f-string uses it
    for a title or a link that is not text. *)
Variable py_repr : json → string.

(** [f"{v}"]. *)
Definition py_format (v : json) : string :=
  match v with
  | JStr s => s
  | _ => py_repr v
  end.

(** ** Search client *)

Definition tavily_url (query : string) : string :=
  "https://api.tavily.com/search?query=" +:+ query +:+ "&apikey=" +:+ tavily_api_key.

Definition fetch_from_tavily (w : world) (query : string) : M json :=
  try_except
    (response ← http_get w (tavily_url query);
     if (status_code response =? 200)%Z then
       data ← lift (response_json response);
       lift (py_get data "results" (JList []))
     else
       mret (JStr (tavily_sorry query)))
    (mret (JStr tavily_error)).

(** ** Dispatcher *)

(** One round of the [for article in ...] loop: the text added to
    [message_to_gemini]. *)
Definition article_line (article : json) : result string :=
  title ← py_get article "title" (JStr "No Title");
  url ← py_get article "url" (JStr "No URL");
  mret ("Title: " +:+ py_format title +:+ ", Link: " +:+ py_format url +:+ nl).

Fixpoint add_articles (message_to_gemini : string) (articles : list json) : result string :=
  match articles with
  | [] => Ret message_to_gemini
  | article :: rest =>
      line ← article_line article;
      add_articles (message_to_gemini +:+ line) rest
  end.

(** Lines 107-111 and 119-123: build the instruction, send it, return the
    reply's text. *)
Definition summarize_articles (w : world) (tavily_response : json) : M string :=
  articles ← lift (py_slice5 tavily_response);
  message_to_gemini ← lift (add_articles summarize_header articles);
  response ← send_message w message_to_gemini;
  lift (response_text response).

Definition is_search (user_input : string) : bool :=
  str_in "search" (lower user_input) || str_in "find" (lower user_input).

Definition is_summarize (user_input : string) : bool :=
  str_in "summarize" (lower user_input).

Definition search_branch (w : world) (user_input user_id : string) : M string :=
  tavily_response ← fetch_from_tavily w user_input;
  update_memory user_id "last_tavily_response" tavily_response;;
  set_tavily_response_memory user_id tavily_response;;
  if is_nonempty_list tavily_response then
    summarize_articles w tavily_response
  else
    mret no_results.

(** The [summarize] block either returns ([Some]) or runs off its end
    ([None]) and the general query follows. *)
Definition summarize_branch (w : world) (user_input user_id : string) : M (option string) :=
  if is_summarize user_input then
    last_tavily_response ← get_tavily_response_memory user_id;
    if py_bool last_tavily_response then
      reply ← summarize_articles w last_tavily_response;
      mret (Some reply)
    else mret None
  else mret None.

Definition general_query (w : world) (user_input user_id : string) : M string :=
  response ← send_message w user_input;
  update_memory user_id "last_user_input" (JStr user_input);;
  reply ← lift (response_text response);
  update_memory user_id "last_gemini_response" (JStr reply);;
  conversation_memory_append (Turn "user" user_input);;
  conversation_memory_append (Turn "assistant" reply);;
  mret reply.

Definition chatbot_body (w : world) (user_input user_id : string) : M string :=
  if is_search user_input then
    search_branch w user_input user_id
  else
    returned ← summarize_branch w user_input user_id;
    match returned with
    | Some reply => mret reply
    | None => general_query w user_input user_id
    end.

Definition chatbot_response (w : world) (user_input user_id : string) : M string :=
  log (CallChatbot user_input user_id);;
  try_except (chatbot_body w user_input user_id) (mret generic_failure).

(** ** UI shell *)

(** [user_input.lower() in ["q", "exit", "quit"]]. *)
Definition is_exit (user_input : string) : bool :=
  bool_decide (lower user_input ∈ exit_keywords).

(** Lines 155-161, run once per submitted text.  [st.stop()] ends the run,
    so what follows it in the script is the [else] here. *)
Definition handle_user_input (w : world) (user_input : string) : M unit :=
  if is_exit user_input then
    log (StWrite goodbye);; log StStop
  else if str_nonempty user_input then
    response ← chatbot_response w user_input "user_1";
    log (StWrite (chatbot_prefix +:+ response))
  else mret ().

(** ** Vocabulary of the properties *)

Definition exec {A} (c : M A) (st : state) : state := (c st).1.
Definition eval {A} (c : M A) (st : state) : result A := (c st).2.

Definition add_trace (st : state) (es : list event) : state :=
  State (conversation_memory st) (user_memory st) (tavily_response_memory st)
        (trace st ++ es).

(** The title and the link of a hit as the instruction shows them. *)
Definition title_url (h : hit) : string * string :=
  (py_format (default (JStr "No Title") (dict_lookup "title" h)),
   py_format (default (JStr "No URL") (dict_lookup "url" h))).

Definition pair_line (p : string * string) : string :=
  "Title: " +:+ p.1 +:+ ", Link: " +:+ p.2 +:+ nl.

Definition instruction (pairs : list (string * string)) : string :=
  summarize_header +:+ foldr (λ p rest, pair_line p +:+ rest) EmptyString pairs.

(** The pairs the instruction lists for the hits of a search. *)
Definition listed_pairs (hits : list hit) : list (string * string) :=
  take 5 (title_url <$> hits).

(** The request of a search did not come back with status 200. *)
Definition request_fails (w : world) (url : string) : Prop :=
  requests_get w url = None ∨
  ∃ r, requests_get w url = Some r ∧ status_code r ≠ 200%Z.

(** The request came back with status 200 and no hit. *)
Definition zero_hits (w : world) (url : string) : Prop :=
  ∃ r d, requests_get w url = Some r ∧ status_code r = 200%Z ∧
         json_body r = Some (JDict d) ∧
         default (JList []) (dict_lookup "results" d) = JList [].

(** Lines 103-104: the search result goes into both stores. *)
Definition remember_search (user_id : string) (tavily_response : json) (st : state) : state :=
  exec (update_memory user_id "last_tavily_response" tavily_response;;
        set_tavily_response_memory user_id tavily_response) st.

(** The results stored for a user, as [summarize] reads them. *)
Definition stored_results (user_id : string) (st : state) : json :=
  default JNull (tavily_response_memory st !! user_id).

(** The string [fetch_from_tavily] returns for a failed request. *)
Definition failure_string (w : world) (query : string) : string :=
  match requests_get w (tavily_url query) with
  | None => tavily_error
  | Some _ => tavily_sorry query
  end.

(** [preserves R c]: running [c] takes every state to one related to it by
    [R], whether [c] returns or raises.  Two relations are used: the
    conversation history stays as it is, and the trace only grows. *)
Definition preserves {A} (R : relation state) (c : M A) : Prop :=
  ∀ st, R st (c st).1.

Definition same_history : relation state :=
  λ st st', conversation_memory st' = conversation_memory st.

Definition trace_grows : relation state :=
  λ st st', ∃ es, trace st' = trace st ++ es.

(** ** Vocabulary of the further properties *)

(** What [update_memory] leaves in [user_memory]: the user's own map with
    one key set, made from the empty map at the user's first write. *)
Definition memory_after_update (user_id key : string) (value : json)
    (um : gmap string (gmap string json)) : gmap string (gmap string json) :=
  <[user_id := <[key := value]> (default ∅ (um !! user_id))]> um.

(** The value [fetch_from_tavily] hands back, read off the world. *)
Definition fetch_value (w : world) (query : string) : json :=
  match requests_get w (tavily_url query) with
  | None => JStr tavily_error
  | Some r =>
      if (status_code r =? 200)%Z then
        match json_body r with
        | Some (JDict d) => default (JList []) (dict_lookup "results" d)
        | _ => JStr tavily_error
        end
      else JStr (tavily_sorry query)
  end.

(** Lines 127-135: what a successful general query writes. *)
Definition record_exchange (user_id user_input reply : string) (st : state) : state :=
  exec (update_memory user_id "last_user_input" (JStr user_input);;
        update_memory user_id "last_gemini_response" (JStr reply);;
        conversation_memory_append (Turn "user" user_input);;
        conversation_memory_append (Turn "assistant" reply)) st.

(** Both stores are as they were. *)
Definition same_stores : relation state :=
  λ st st', user_memory st' = user_memory st ∧
            tavily_response_memory st' = tavily_response_memory st.

(** Every user but [user_id] has in both stores what they had. *)
Definition others_untouched (user_id : string) : relation state :=
  λ st st', ∀ u, u ≠ user_id →
    user_memory st' !! u = user_memory st !! u ∧
    tavily_response_memory st' !! u = tavily_response_memory st !! u.

(** The two copies of a user's last search results are the same value:
    the entry "last_tavily_response" of [user_memory] and the entry of
    [tavily_response_memory] ([None] when absent). *)
Definition stores_agree (user_id : string) (st : state) : Prop :=
  eval (get_user_memory user_id "last_tavily_response") st =
    Ret (stored_results user_id st).

(** A history made of user turns, each followed by its assistant turn. *)
Inductive paired : list turn → Prop :=
| paired_nil : paired []
| paired_cons user_text reply l :
    paired l → paired (Turn "user" user_text :: Turn "assistant" reply :: l).

Definition is_st_write (e : event) : bool :=
  match e with
  | StWrite _ => true
  | _ => false
  end.

(** The events a dispatcher turn may leave after its own call: one HTTP
    request exactly on the search path, then at most one message to the
    chat session. *)
Definition turn_events (user_input : string) (es : list event) : Prop :=
  if is_search user_input then
    es = [HttpGet (tavily_url user_input)] ∨
    ∃ m, es = [HttpGet (tavily_url user_input); SendMessage m]
  else
    es = [] ∨ ∃ m, es = [SendMessage m].

(** The text takes the general-query path: no search keyword, and no
    "summarize" with usable stored results. *)
Definition is_general (user_input user_id : string) (st : state) : bool :=
  negb (is_search user_input) &&
  negb (is_summarize user_input && py_bool (stored_results user_id st)).

Definition is_http_get (e : event) : bool :=
  match e with
  | HttpGet _ => true
  | _ => false
  end.

Definition is_send_message (e : event) : bool :=
  match e with
  | SendMessage _ => true
  | _ => false
  end.

(** Lines 74-77: the history in the provider's format, as [start_chat]
    receives it at the next run of the script. *)
Record provider_turn : Type := ProviderTurn { p_role : string; parts : list string }.

Definition formatted_history (conversation_memory : list turn) : list provider_turn :=
  (λ message, ProviderTurn (role message) [content message]) <$> conversation_memory.

(** ** Running the monad *)

Lemma append_assoc (a b c : string) : (a +:+ b) +:+ c = a +:+ (b +:+ c).
Proof.
  induction a as [|x a IH]; [done |].
  change (String x ((a +:+ b) +:+ c) = String x (a +:+ b +:+ c)). by rewrite IH.
Qed.

Lemma run_bind_ret {A B} (c : M A) (f : A → M B) st st' a :
  c st = (st', Ret a) → (c ≫= f) st = f a st'.
Proof. intros H. unfold mbind, M_bind. by rewrite H. Qed.

Lemma run_bind_raise {A B} (c : M A) (f : A → M B) st st' :
  c st = (st', Raise) → (c ≫= f) st = (st', Raise).
Proof. intros H. unfold mbind, M_bind. by rewrite H. Qed.

Lemma run_log e st : log e st = (add_trace st [e], Ret ()).
Proof. done. Qed.

Lemma add_trace_app st es es' :
  add_trace (add_trace st es) es' = add_trace st (es ++ es').
Proof. unfold add_trace. simpl. by rewrite <- app_assoc. Qed.

Ltac munfold :=
  unfold exec, eval, chatbot_response, chatbot_body, search_branch, summarize_branch,
    general_query, summarize_articles, fetch_from_tavily, http_get, send_message,
    response_text, response_json, try_except, log, lift, update_memory,
    set_tavily_response_memory, get_tavily_response_memory, conversation_memory_append,
    add_trace, mbind, mret, M_bind, M_ret in *.

(** ** Frames

    For a preorder [R], [preserves R] goes through sequencing, [try] and
    branching. *)

#[local] Instance same_history_preorder : PreOrder same_history.
Proof.
  split; [by intros st |].
  intros st1 st2 st3 H12 H23. unfold same_history in *. congruence.
Qed.

#[local] Instance trace_grows_preorder : PreOrder trace_grows.
Proof.
  split.
  - intros st. exists []. by rewrite app_nil_r.
  - intros st1 st2 st3 [es H12] [es' H23]. exists (es ++ es').
    by rewrite H23, H12, app_assoc.
Qed.

Section Preserves.
Context (R : relation state) `{!PreOrder R}.

Lemma preserves_ret {A} (a : A) : preserves R (mret a : M A).
Proof. intros st. reflexivity. Qed.

Lemma preserves_lift {A} (r : result A) : preserves R (lift r).
Proof. intros st. reflexivity. Qed.

Lemma preserves_bind {A B} (c : M A) (f : A → M B) :
  preserves R c → (∀ a, preserves R (f a)) → preserves R (c ≫= f).
Proof.
  intros Hc Hf st. specialize (Hc st). unfold mbind, M_bind.
  destruct (c st) as [st' [a|]]; simpl in *; [| done].
  etrans; [exact Hc | apply Hf].
Qed.

Lemma preserves_try {A} (body handler : M A) :
  preserves R body → preserves R handler → preserves R (try_except body handler).
Proof.
  intros Hb Hh st. specialize (Hb st). unfold try_except.
  destruct (body st) as [st' [a|]]; simpl in *; [done |].
  etrans; [exact Hb | apply Hh].
Qed.

Lemma preserves_if {A} (b : bool) (c1 c2 : M A) :
  preserves R c1 → preserves R c2 → preserves R (if b then c1 else c2).
Proof. by destruct b. Qed.

Lemma preserves_get_tavily user_id : preserves R (get_tavily_response_memory user_id).
Proof. intros st. reflexivity. Qed.
End Preserves.

Lemma same_history_log e : preserves same_history (log e).
Proof. by intros st. Qed.

Lemma same_history_update_memory user_id key value :
  preserves same_history (update_memory user_id key value).
Proof. by intros st. Qed.

Lemma same_history_set_tavily user_id value :
  preserves same_history (set_tavily_response_memory user_id value).
Proof. by intros st. Qed.

Lemma trace_grows_log e : preserves trace_grows (log e).
Proof. intros st. by exists [e]. Qed.

Lemma trace_grows_update_memory user_id key value :
  preserves trace_grows (update_memory user_id key value).
Proof. intros st. exists []. simpl. by rewrite app_nil_r. Qed.

Lemma trace_grows_set_tavily user_id value :
  preserves trace_grows (set_tavily_response_memory user_id value).
Proof. intros st. exists []. simpl. by rewrite app_nil_r. Qed.

Lemma trace_grows_append t : preserves trace_grows (conversation_memory_append t).
Proof. intros st. exists []. simpl. by rewrite app_nil_r. Qed.

Create HintDb frame.
#[local] Hint Resolve preserves_ret preserves_lift preserves_try preserves_if
  preserves_get_tavily same_history_log same_history_update_memory
  same_history_set_tavily trace_grows_log trace_grows_update_memory
  trace_grows_set_tavily trace_grows_append : frame.
#[local] Hint Extern 1 (PreOrder _) => apply _ : frame.

Ltac frame :=
  unfold chatbot_response, chatbot_body, search_branch, summarize_branch,
    general_query, summarize_articles, fetch_from_tavily, http_get, send_message;
  repeat first
    [ apply preserves_bind; [apply _ | | intros ?]
    | apply preserves_try; [apply _ | |]
    | apply preserves_if; [apply _ | |]
    | match goal with |- preserves _ (match ?x with _ => _ end) => destruct x end
    | solve [auto with frame] ].

Lemma same_history_search_branch w user_input user_id :
  preserves same_history (search_branch w user_input user_id).
Proof. frame. Qed.

Lemma same_history_summarize_articles w v :
  preserves same_history (summarize_articles w v).
Proof. frame. Qed.

Lemma trace_grows_chatbot_body w user_input user_id :
  preserves trace_grows (chatbot_body w user_input user_id).
Proof. frame. Qed.

(** ** The search client *)

Lemma fetch_fails w query st :
  request_fails w (tavily_url query) →
  fetch_from_tavily w query st =
    (add_trace st [HttpGet (tavily_url query)], Ret (JStr (failure_string w query))).
Proof.
  unfold failure_string. intros [H | (r & H & Hcode)]; munfold; rewrite H; simpl; [done |].
  apply Z.eqb_neq in Hcode. by rewrite Hcode.
Qed.

Lemma fetch_ok w query st r d :
  requests_get w (tavily_url query) = Some r →
  status_code r = 200%Z →
  json_body r = Some (JDict d) →
  fetch_from_tavily w query st =
    (add_trace st [HttpGet (tavily_url query)],
     Ret (default (JList []) (dict_lookup "results" d))).
Proof.
  intros H Hcode Hbody. munfold. rewrite H. simpl. rewrite Hcode, Hbody. done.
Qed.

Lemma failure_string_nonempty w query : str_nonempty (failure_string w query) = true.
Proof. unfold failure_string. by destruct (requests_get w (tavily_url query)). Qed.

(** ** The instruction *)

Lemma article_line_hit (h : hit) : article_line (JDict h) = Ret (pair_line (title_url h)).
Proof. done. Qed.

Lemma add_articles_hits (hits : list hit) message :
  add_articles message (JDict <$> hits) =
    Ret (message +:+ foldr (λ p rest, pair_line p +:+ rest) EmptyString (title_url <$> hits)).
Proof.
  revert message. induction hits as [|h hits IH]; intros message.
  - simpl. f_equal. induction message as [|c m IHm]; [done |].
    change (String c m = String c (m +:+ "")). by rewrite <- IHm.
  - rewrite fmap_cons. cbn [add_articles]. rewrite article_line_hit.
    unfold mbind, result_bind. rewrite IH. simpl. by rewrite append_assoc.
Qed.

Lemma summarize_articles_hits w (hits : list hit) st :
  summarize_articles w (JList (JDict <$> hits)) st =
    (add_trace st [SendMessage (instruction (listed_pairs hits))],
     from_option Ret Raise (chat_reply w (instruction (listed_pairs hits)) ≫= text)).
Proof.
  unfold summarize_articles, py_slice5, listed_pairs.
  rewrite <- !fmap_take.
  unfold lift at 1. erewrite run_bind_ret; [| reflexivity].
  rewrite add_articles_hits.
  unfold lift at 1. erewrite run_bind_ret; [| reflexivity].
  unfold instruction. munfold.
  by destruct (chat_reply w _) as [[[reply|]]|].
Qed.

(** A stored string makes the loop raise at its first character, before
    anything is sent. *)
Lemma summarize_articles_string w s st :
  str_nonempty s = true → summarize_articles w (JStr s) st = (st, Raise).
Proof. destruct s as [|c s]; [discriminate | done]. Qed.

(** ** The dispatcher, path by path *)

Lemma chatbot_response_no_results w user_input user_id st v :
  is_search user_input = true →
  (∀ st', fetch_from_tavily w user_input st' =
            (add_trace st' [HttpGet (tavily_url user_input)], Ret v)) →
  is_nonempty_list v = false →
  chatbot_response w user_input user_id st =
    (remember_search user_id v
       (add_trace st [CallChatbot user_input user_id; HttpGet (tavily_url user_input)]),
     Ret no_results).
Proof.
  intros Hs Hf Hv. unfold chatbot_response, chatbot_body, search_branch.
  rewrite Hs. erewrite run_bind_ret; [| apply run_log].
  unfold try_except. erewrite run_bind_ret; [| apply Hf].
  rewrite Hv, add_trace_app. done.
Qed.

Lemma chatbot_response_stored_string w user_input user_id st s :
  is_search user_input = false →
  is_summarize user_input = true →
  tavily_response_memory st !! user_id = Some (JStr s) →
  str_nonempty s = true →
  chatbot_response w user_input user_id st =
    (add_trace st [CallChatbot user_input user_id], Ret generic_failure).
Proof.
  intros Hs Hz Hm Hne. unfold chatbot_response, chatbot_body, summarize_branch.
  rewrite Hs, Hz. erewrite run_bind_ret; [| apply run_log].
  unfold try_except, get_tavily_response_memory.
  unfold mbind at 1 2, M_bind. cbn [add_trace tavily_response_memory].
  rewrite Hm. cbn [default from_option py_bool id]. rewrite Hne.
  erewrite run_bind_raise; [| by apply summarize_articles_string]. done.
Qed.

(** The [summarize] block with stored results is the instruction and its
    reply, under the dispatcher's handler. *)
Lemma chatbot_response_summarize w user_input user_id st :
  is_search user_input = false →
  is_summarize user_input = true →
  py_bool (stored_results user_id st) = true →
  chatbot_response w user_input user_id st =
    (log (CallChatbot user_input user_id);;
     try_except (summarize_articles w (stored_results user_id st))
                (mret generic_failure)) st.
Proof.
  intros Hs Hz Hb. unfold chatbot_response, chatbot_body, summarize_branch.
  rewrite Hs, Hz. erewrite !run_bind_ret; [| apply run_log ..].
  unfold try_except, get_tavily_response_memory, stored_results in *.
  unfold mbind at 1 2, M_bind. cbn [add_trace tavily_response_memory].
  rewrite Hb. unfold mbind, M_bind, mret, M_ret.
  by destruct (summarize_articles _ _ _) as [st' [r|]].
Qed.

(** Without usable stored results the [summarize] block runs off its end. *)
Lemma chatbot_response_general w user_input user_id st :
  is_search user_input = false →
  (is_summarize user_input = true → py_bool (stored_results user_id st) = false) →
  chatbot_response w user_input user_id st =
    (log (CallChatbot user_input user_id);;
     try_except (general_query w user_input user_id) (mret generic_failure)) st.
Proof.
  intros Hs Hb. unfold chatbot_response, chatbot_body, summarize_branch.
  rewrite Hs. erewrite !run_bind_ret; [| apply run_log ..].
  unfold try_except, get_tavily_response_memory, stored_results in *.
  destruct (is_summarize user_input); [| done].
  unfold mbind at 1 2, M_bind. cbn [add_trace tavily_response_memory].
  by rewrite Hb.
Qed.

Lemma chatbot_response_hits w user_input user_id st r d (hits : list hit) :
  is_search user_input = true →
  requests_get w (tavily_url user_input) = Some r →
  status_code r = 200%Z →
  json_body r = Some (JDict d) →
  dict_lookup "results" d = Some (JList (JDict <$> hits)) →
  hits ≠ [] →
  chatbot_response w user_input user_id st =
    (add_trace
       (remember_search user_id (JList (JDict <$> hits))
          (add_trace st [CallChatbot user_input user_id; HttpGet (tavily_url user_input)]))
       [SendMessage (instruction (listed_pairs hits))],
     Ret (default generic_failure (chat_reply w (instruction (listed_pairs hits)) ≫= text))).
Proof.
  intros Hs Hr Hcode Hbody Hres Hn.
  unfold chatbot_response, chatbot_body, search_branch.
  rewrite Hs. erewrite run_bind_ret; [| apply run_log].
  unfold try_except. erewrite run_bind_ret; [| by eapply fetch_ok].
  rewrite Hres, add_trace_app. cbn [default from_option id].
  assert (is_nonempty_list (JList (JDict <$> hits)) = true) as ->
    by (by destruct hits).
  erewrite run_bind_ret; [| reflexivity].
  erewrite run_bind_ret; [| reflexivity].
  rewrite summarize_articles_hits.
  by destruct (chat_reply w _ ≫= text).
Qed.

(** The dispatcher returns: its handler does. *)
Lemma chatbot_response_returns w user_input user_id st :
  ∃ st' reply, chatbot_response w user_input user_id st = (st', Ret reply).
Proof.
  unfold chatbot_response. erewrite run_bind_ret; [| apply run_log].
  unfold try_except.
  destruct (chatbot_body _ _ _ _) as [st' [reply|]]; by eauto.
Qed.

(** What a search leaves in the two stores. *)
Lemma remember_search_stored user_id v st :
  stored_results user_id (remember_search user_id v st) = v.
Proof.
  unfold stored_results, remember_search, exec. munfold. simpl.
  by rewrite lookup_insert_eq.
Qed.

Lemma remember_search_user_memory user_id v st :
  eval (get_user_memory user_id "last_tavily_response") (remember_search user_id v st)
  = Ret v.
Proof.
  unfold remember_search, exec, eval, get_user_memory. munfold. simpl.
  rewrite lookup_alter_eq.
  destruct (user_memory st !! user_id) as [m|] eqn:Hm.
  - rewrite Hm. simpl. by rewrite lookup_insert_eq.
  - rewrite lookup_insert_eq. simpl. by rewrite lookup_insert_eq.
Qed.

(** The dispatcher's first event is its own call; the trace only grows. *)
Lemma chatbot_response_trace w user_input user_id st :
  ∃ rest, trace (exec (chatbot_response w user_input user_id) st) =
            trace st ++ CallChatbot user_input user_id :: rest.
Proof.
  unfold exec, chatbot_response. erewrite run_bind_ret; [| apply run_log].
  assert (preserves trace_grows
            (try_except (chatbot_body w user_input user_id) (mret generic_failure)))
    as H by (apply preserves_try; auto using trace_grows_chatbot_body with frame).
  destruct (H (add_trace st [CallChatbot user_input user_id])) as [es Hes].
  exists es. rewrite Hes. simpl. by rewrite <- app_assoc.
Qed.

Lemma exit_keyword_nonempty keyword user_input :
  keyword ∈ exit_keywords → str_in keyword (lower user_input) = true →
  str_nonempty user_input = true.
Proof.
  intros Hk Hin. destruct user_input as [|c s]; [| done].
  unfold exit_keywords in Hk. rewrite !elem_of_cons, elem_of_nil in Hk.
  destruct Hk as [-> | [-> | [-> | []]]]; discriminate.
Qed.

(** ** The properties *)

(** C1. When the text contains "search" or "find" and the search client
    returns N > 0 hits, the instruction sent to the conversation client
    lists the title/URL pairs of the first min(N,5) hits, in the order
    received, and the dispatcher returns the text of the client's reply
    (the generic failure string when the client gives none). *)
Theorem search_instruction_lists_hits w user_input user_id st r d (hits : list hit) :
  is_search user_input = true →
  requests_get w (tavily_url user_input) = Some r →
  status_code r = 200%Z →
  json_body r = Some (JDict d) →
  dict_lookup "results" d = Some (JList (JDict <$> hits)) →
  0 < length hits →
  length (listed_pairs hits) = min (length hits) 5 ∧
  (∀ i, i < min (length hits) 5 → listed_pairs hits !! i = title_url <$> hits !! i) ∧
  trace (exec (chatbot_response w user_input user_id) st) =
    trace st ++ [CallChatbot user_input user_id; HttpGet (tavily_url user_input);
                 SendMessage (instruction (listed_pairs hits))] ∧
  eval (chatbot_response w user_input user_id) st =
    match chat_reply w (instruction (listed_pairs hits)) ≫= text with
    | Some reply => Ret reply
    | None => Ret generic_failure
    end.
Proof.
  intros Hs Hr Hcode Hbody Hres Hn.
  split; [| split].
  { unfold listed_pairs. rewrite length_take, length_fmap. lia. }
  { intros i Hi. unfold listed_pairs.
    rewrite lookup_take_lt by lia. by rewrite list_lookup_fmap. }
  unfold exec, eval.
  erewrite chatbot_response_hits by (done || (destruct hits; [simpl in Hn; lia | done])).
  simpl. rewrite <- !app_assoc. split; [done |].
  by destruct (chat_reply w _ ≫= text).
Qed.

(** C2. When the text contains "search" or "find" and the search yields
    zero hits, or its request returns a status other than 200 or raises,
    the dispatcher returns the fixed "no results" message and nothing is
    sent to the conversation client. *)
Theorem search_without_hits_no_results w user_input user_id st :
  is_search user_input = true →
  zero_hits w (tavily_url user_input) ∨ request_fails w (tavily_url user_input) →
  eval (chatbot_response w user_input user_id) st = Ret no_results ∧
  trace (exec (chatbot_response w user_input user_id) st) =
    trace st ++ [CallChatbot user_input user_id; HttpGet (tavily_url user_input)].
Proof.
  intros Hs [(r & d & Hr & Hcode & Hbody & Hres) | Hfail].
  - unfold exec, eval.
    erewrite chatbot_response_no_results with (v := JList []); [done | done | | done].
    intros st'. erewrite fetch_ok by done. by rewrite Hres.
  - unfold exec, eval.
    erewrite chatbot_response_no_results; [done | done | | ].
    + intros st'. by apply fetch_fails.
    + done.
Qed.

(** C3. When the text contains "summarize" and neither "search" nor "find",
    and nothing usable is stored for the user (no entry, or an empty one),
    the dispatcher runs the general-query path: the raw text is what is
    sent to the conversation client, and the reply is the client's text or,
    when the client fails, the generic failure string. *)
Theorem summarize_without_results_falls_through w user_input user_id st :
  is_search user_input = false →
  is_summarize user_input = true →
  py_bool (stored_results user_id st) = false →
  chatbot_response w user_input user_id st =
    (log (CallChatbot user_input user_id);;
     try_except (general_query w user_input user_id) (mret generic_failure)) st ∧
  trace (exec (chatbot_response w user_input user_id) st) =
    trace st ++ [CallChatbot user_input user_id; SendMessage user_input] ∧
  eval (chatbot_response w user_input user_id) st =
    Ret (default generic_failure (chat_reply w user_input ≫= text)).
Proof.
  intros Hs Hz Hb. unfold exec, eval.
  rewrite chatbot_response_general by auto. split; [done |].
  munfold. destruct (chat_reply w user_input) as [[[reply|]]|]; simpl;
    by rewrite <- ?app_assoc.
Qed.

(** C4. On the general-query path (the text contains none of "search",
    "find", "summarize"), after the conversation client has replied the
    conversation history is the old one followed by the user turn and then
    the assistant turn. *)
Theorem general_query_history w user_input user_id st reply :
  is_search user_input = false →
  is_summarize user_input = false →
  chat_reply w user_input = Some {| text := Some reply |} →
  eval (chatbot_response w user_input user_id) st = Ret reply ∧
  conversation_memory (exec (chatbot_response w user_input user_id) st) =
    conversation_memory st ++ [Turn "user" user_input; Turn "assistant" reply] ∧
  length (conversation_memory (exec (chatbot_response w user_input user_id) st)) =
    length (conversation_memory st) + 2.
Proof.
  intros Hs Hz Hc. unfold exec, eval.
  rewrite chatbot_response_general by (rewrite ?Hz; done).
  munfold. rewrite Hc. simpl. rewrite <- app_assoc, length_app. done.
Qed.

(** C5. On the search path, and on the summarize path when results are
    stored, the conversation history is left as it was. *)
Theorem search_and_summarize_keep_history w user_input user_id st :
  is_search user_input = true ∨
  (is_search user_input = false ∧ is_summarize user_input = true ∧
   py_bool (stored_results user_id st) = true) →
  conversation_memory (exec (chatbot_response w user_input user_id) st) =
    conversation_memory st.
Proof.
  intros [Hs | (Hs & Hz & Hb)].
  - unfold chatbot_response, chatbot_body. rewrite Hs.
    assert (preserves same_history
              (log (CallChatbot user_input user_id);;
               try_except (search_branch w user_input user_id) (mret generic_failure)))
      as H; [| apply H].
    frame.
  - unfold exec. rewrite chatbot_response_summarize by done.
    assert (preserves same_history
              (log (CallChatbot user_input user_id);;
               try_except (summarize_articles w (stored_results user_id st))
                          (mret generic_failure)))
      as H; [| apply H].
    frame.
Qed.

(** C6. The dispatcher never raises: it returns what its body returns,
    and the generic failure string when its body raises. *)
Theorem chatbot_response_never_raises w user_input user_id st :
  (∃ reply, eval (chatbot_response w user_input user_id) st = Ret reply) ∧
  eval (chatbot_response w user_input user_id) st =
    match eval (chatbot_body w user_input user_id)
               (add_trace st [CallChatbot user_input user_id]) with
    | Ret reply => Ret reply
    | Raise => Ret generic_failure
    end.
Proof.
  split.
  - destruct (chatbot_response_returns w user_input user_id st) as (st' & reply & H).
    exists reply. unfold eval. by rewrite H.
  - unfold eval, chatbot_response. erewrite run_bind_ret; [| apply run_log].
    unfold try_except. by destruct (chatbot_body _ _ _ _) as [st' [reply|]].
Qed.

(** C7. A text that is "q", "exit" or "quit" after lowercasing makes the
    UI shell write the goodbye message and stop; the state is otherwise
    untouched and the dispatcher is not called. *)
Theorem exit_keyword_only_goodbye w user_input st :
  is_exit user_input = true →
  handle_user_input w user_input st = (add_trace st [StWrite goodbye; StStop], Ret ()) ∧
  ∀ text user_id,
    CallChatbot text user_id ∉ drop (length (trace st))
                                    (trace (exec (handle_user_input w user_input) st)).
Proof.
  intros He. unfold exec, handle_user_input. rewrite He.
  assert ((log (StWrite goodbye);; log StStop) st
          = (add_trace st [StWrite goodbye; StStop], Ret ())) as ->
    by (munfold; simpl; by rewrite <- app_assoc).
  split; [done |]. intros text user_id. simpl.
  rewrite drop_app_length, !elem_of_cons, elem_of_nil.
  intros [? | [? | []]]; discriminate.
Qed.

(** The value read depends on [user_memory] alone: nothing but
    [update_memory] comes between two reads. *)
Lemma get_user_memory_reads_user_memory user_id key st st' :
  user_memory st' = user_memory st →
  eval (get_user_memory user_id key) st' = eval (get_user_memory user_id key) st.
Proof. intros H. unfold eval, get_user_memory. simpl. by rewrite H. Qed.

(** C8. [get_user_memory] leaves the state as it is, so a second call gives
    what the first gave; it gives the stored value, and [None] ([JNull])
    for a user or a key that is absent. *)
Theorem get_user_memory_idempotent user_id key st :
  exec (get_user_memory user_id key) st = st ∧
  eval (get_user_memory user_id key) (exec (get_user_memory user_id key) st) =
    eval (get_user_memory user_id key) st ∧
  eval (get_user_memory user_id key) st =
    match user_memory st !! user_id ≫= lookup key with
    | Some value => Ret value
    | None => Ret JNull
    end.
Proof.
  split; [done |]. split; [done |].
  unfold eval, get_user_memory. simpl.
  destruct (user_memory st !! user_id) as [m|]; simpl.
  - by destruct (m !! key).
  - by rewrite lookup_empty.
Qed.

(** C9, as the code has it.  A failed search (the request raises or comes
    back with a status other than 200) stores its failure string as the
    user's last results, in both stores, and answers "no results".  A
    following text that contains "summarize" and neither "search" nor
    "find" then takes that string for stored results, raises in the loop
    before anything is sent, and gets the generic failure string. *)
Theorem failed_search_then_summarize w1 w2 query user_input user_id st :
  is_search query = true →
  request_fails w1 (tavily_url query) →
  is_search user_input = false →
  is_summarize user_input = true →
  eval (chatbot_response w1 query user_id) st = Ret no_results ∧
  stored_results user_id (exec (chatbot_response w1 query user_id) st) =
    JStr (failure_string w1 query) ∧
  eval (get_user_memory user_id "last_tavily_response")
       (exec (chatbot_response w1 query user_id) st) =
    Ret (JStr (failure_string w1 query)) ∧
  py_bool (JStr (failure_string w1 query)) = true ∧
  eval (summarize_articles w2 (JStr (failure_string w1 query)))
       (add_trace (exec (chatbot_response w1 query user_id) st)
                  [CallChatbot user_input user_id]) = Raise ∧
  chatbot_response w2 user_input user_id (exec (chatbot_response w1 query user_id) st) =
    (add_trace (exec (chatbot_response w1 query user_id) st)
               [CallChatbot user_input user_id],
     Ret generic_failure).
Proof.
  intros Hq Hfail Hs Hz.
  pose proof (failure_string_nonempty w1 query) as Hne.
  unfold exec, eval.
  erewrite chatbot_response_no_results;
    [| done | intros st'; by apply fetch_fails | done].
  cbn [fst snd].
  split; [done |]. split; [apply remember_search_stored |].
  split; [apply remember_search_user_memory |].
  split; [done |].
  split; [by rewrite summarize_articles_string |].
  apply chatbot_response_stored_string with (s := failure_string w1 query);
    [done | done | | done].
  pose proof (remember_search_stored user_id (JStr (failure_string w1 query))
    (add_trace st [CallChatbot query user_id; HttpGet (tavily_url query)])) as Hst.
  unfold stored_results in Hst.
  destruct (tavily_response_memory _ !! user_id) as [v|]; simpl in Hst; by subst.
Qed.

(** C10. The exit check compares the whole lowercased text: a text that
    contains an exit keyword without being one goes to the dispatcher, as
    user "user_1", and the dispatcher's reply is written after the
    chatbot prefix. *)
Theorem exit_check_is_equality w user_input st keyword :
  keyword ∈ exit_keywords →
  str_in keyword (lower user_input) = true →
  is_exit user_input = false →
  ∃ st1 reply rest,
    chatbot_response w user_input "user_1" st = (st1, Ret reply) ∧
    trace st1 = trace st ++ CallChatbot user_input "user_1" :: rest ∧
    handle_user_input w user_input st =
      (add_trace st1 [StWrite (chatbot_prefix +:+ reply)], Ret ()).
Proof.
  intros Hk Hin He.
  pose proof (exit_keyword_nonempty _ _ Hk Hin) as Hne.
  destruct (chatbot_response_returns w user_input "user_1" st) as (st1 & reply & Hrun).
  destruct (chatbot_response_trace w user_input "user_1" st) as [rest Ht].
  unfold exec in Ht. rewrite Hrun in Ht.
  exists st1, reply, rest. split; [done |]. split; [done |].
  unfold handle_user_input. rewrite He, Hne.
  erewrite run_bind_ret; [| exact Hrun]. apply run_log.
Qed.

(** ** Further properties: the memory store *)

Lemma update_memory_run user_id key value st :
  update_memory user_id key value st =
    (State (conversation_memory st)
           (memory_after_update user_id key value (user_memory st))
           (tavily_response_memory st) (trace st), Ret ()).
Proof.
  unfold update_memory, memory_after_update. do 2 f_equal.
  destruct (user_memory st !! user_id) as [m|] eqn:Hm; simpl.
  - apply map_eq. intros u. rewrite lookup_alter, lookup_insert.
    case_decide; subst; [by rewrite Hm | done].
  - by rewrite alter_insert_eq.
Qed.

Lemma get_after_update user_id key value st :
  eval (get_user_memory user_id key) (exec (update_memory user_id key value) st) = Ret value.
Proof.
  unfold exec, eval. rewrite update_memory_run. unfold get_user_memory, memory_after_update.
  simpl. rewrite lookup_insert_eq. simpl. by rewrite lookup_insert_eq.
Qed.

Lemma get_after_update_other user_id key value user_id' key' st :
  (user_id', key') ≠ (user_id, key) →
  eval (get_user_memory user_id' key') (exec (update_memory user_id key value) st) =
  eval (get_user_memory user_id' key') st.
Proof.
  intros Hne. unfold exec, eval. rewrite update_memory_run.
  unfold get_user_memory, memory_after_update. simpl. f_equal. f_equal.
  destruct (decide (user_id' = user_id)) as [-> | Hu].
  - rewrite lookup_insert_eq. simpl. rewrite lookup_insert_ne by congruence. done.
  - by rewrite lookup_insert_ne.
Qed.

(** X1. What [update_memory] stores under a user and a key is what
    [get_user_memory] then reads there, also at the user's first write. *)
Theorem update_then_get user_id key value st :
  eval (update_memory user_id key value;; get_user_memory user_id key) st = Ret value.
Proof.
  unfold eval. erewrite run_bind_ret; [| apply update_memory_run].
  pose proof (get_after_update user_id key value st) as H.
  unfold eval, exec in H. by rewrite update_memory_run in H.
Qed.

(** X2. [update_memory] changes one key of one user: every other key and
    every other user reads as before, and the history, the stored search
    results and the trace stay as they are. *)
Theorem update_memory_frame user_id key value user_id' key' st :
  (user_id', key') ≠ (user_id, key) →
  eval (update_memory user_id key value;; get_user_memory user_id' key') st =
    eval (get_user_memory user_id' key') st ∧
  conversation_memory (exec (update_memory user_id key value) st) = conversation_memory st ∧
  tavily_response_memory (exec (update_memory user_id key value) st) =
    tavily_response_memory st ∧
  trace (exec (update_memory user_id key value) st) = trace st.
Proof.
  intros Hne. split; [| done].
  pose proof (get_after_update_other user_id key value user_id' key' st Hne) as H.
  unfold eval, exec in *. erewrite run_bind_ret; [| apply update_memory_run].
  by rewrite update_memory_run in H.
Qed.

(** X3. A second write to the same user and key replaces the first: the
    state is the one the second write alone gives. *)
Theorem update_memory_overwrites user_id key value1 value2 st :
  exec (update_memory user_id key value1;; update_memory user_id key value2) st =
  exec (update_memory user_id key value2) st.
Proof.
  unfold exec. erewrite run_bind_ret; [| apply update_memory_run].
  rewrite !update_memory_run. unfold memory_after_update. simpl.
  rewrite lookup_insert_eq. simpl. by rewrite !insert_insert_eq.
Qed.

(** ** Further properties: the search client *)

Lemma fetch_from_tavily_run w query st :
  fetch_from_tavily w query st =
    (add_trace st [HttpGet (tavily_url query)], Ret (fetch_value w query)).
Proof.
  unfold fetch_value. munfold.
  destruct (requests_get w (tavily_url query)) as [r|]; simpl; [| done].
  destruct (status_code r =? 200)%Z; [| done].
  destruct (json_body r) as [[| | | | | |d]|]; done.
Qed.

Lemma fetch_value_of_eval w query st v :
  eval (fetch_from_tavily w query) st = Ret v → fetch_value w query = v.
Proof. unfold eval. rewrite fetch_from_tavily_run. simpl. congruence. Qed.

(** X4. [fetch_from_tavily] never raises: whatever the request does, it
    makes that one request, returns a value, and leaves the session
    stores as they are. *)
Theorem fetch_from_tavily_never_raises w query st :
  ∃ v, fetch_from_tavily w query st =
         (add_trace st [HttpGet (tavily_url query)], Ret v).
Proof. exists (fetch_value w query). apply fetch_from_tavily_run. Qed.

(** X5. A response with status 200 whose body does not decode, or decodes
    to something that is not an object, gives the same error string as a
    request that raises. *)
Theorem fetch_bad_body w query st r :
  requests_get w (tavily_url query) = Some r →
  status_code r = 200%Z →
  (json_body r = None ∨ ∃ v, json_body r = Some v ∧ ∀ d, v ≠ JDict d) →
  eval (fetch_from_tavily w query) st = Ret (JStr tavily_error).
Proof.
  intros Hr Hcode Hbody. unfold eval. rewrite fetch_from_tavily_run.
  unfold fetch_value. rewrite Hr, Hcode. simpl.
  destruct Hbody as [-> | (v & -> & Hv)]; [done |].
  destruct v; try done. by destruct (Hv d).
Qed.

(** X6. From a response with status 200 and an object for body the
    search client returns what the object has under "results", of whatever
    type, and the empty list when the key is missing. *)
Theorem fetch_returns_results_field w query st r d :
  requests_get w (tavily_url query) = Some r →
  status_code r = 200%Z →
  json_body r = Some (JDict d) →
  eval (fetch_from_tavily w query) st =
    match dict_lookup "results" d with
    | Some v => Ret v
    | None => Ret (JList [])
    end.
Proof.
  intros Hr Hcode Hbody. unfold eval. rewrite fetch_from_tavily_run.
  unfold fetch_value. rewrite Hr, Hcode, Hbody. simpl.
  by destruct (dict_lookup "results" d).
Qed.

(** ** Further properties: the dispatcher *)

#[local] Instance same_stores_preorder : PreOrder same_stores.
Proof.
  split; [by intros st |].
  intros st1 st2 st3 [H12 H12'] [H23 H23']. unfold same_stores. split; congruence.
Qed.

#[local] Instance others_untouched_preorder user_id : PreOrder (others_untouched user_id).
Proof.
  split; [by intros st u Hu |].
  intros st1 st2 st3 H12 H23 u Hu.
  destruct (H12 u Hu) as [<- <-]. by apply H23.
Qed.

Lemma same_stores_log e : preserves same_stores (log e).
Proof. by intros st. Qed.

Lemma others_untouched_log user_id e : preserves (others_untouched user_id) (log e).
Proof. by intros st u Hu. Qed.

Lemma others_untouched_update_memory user_id key value :
  preserves (others_untouched user_id) (update_memory user_id key value).
Proof.
  intros st u Hu. rewrite update_memory_run. unfold memory_after_update. simpl.
  by rewrite lookup_insert_ne.
Qed.

Lemma others_untouched_set_tavily user_id value :
  preserves (others_untouched user_id) (set_tavily_response_memory user_id value).
Proof. intros st u Hu. simpl. by rewrite lookup_insert_ne. Qed.

Lemma others_untouched_append user_id t :
  preserves (others_untouched user_id) (conversation_memory_append t).
Proof. by intros st u Hu. Qed.

#[local] Hint Resolve same_stores_log others_untouched_log others_untouched_update_memory
  others_untouched_set_tavily others_untouched_append : frame.

Lemma same_stores_summarize_articles w v : preserves same_stores (summarize_articles w v).
Proof. frame. Qed.

Lemma others_untouched_chatbot_response w user_input user_id :
  preserves (others_untouched user_id) (chatbot_response w user_input user_id).
Proof. frame. Qed.

Lemma try_except_state {A} (body : M A) (a : A) st :
  (try_except body (mret a) st).1 = (body st).1.
Proof. unfold try_except. by destruct (body st) as [st' [x|]]. Qed.

(** The search path: the request, the two stores, then the instruction
    under the handler or the fixed message. *)
Lemma chatbot_response_search w user_input user_id st :
  is_search user_input = true →
  chatbot_response w user_input user_id st =
    let st1 := remember_search user_id (fetch_value w user_input)
                 (add_trace st [CallChatbot user_input user_id;
                                HttpGet (tavily_url user_input)]) in
    if is_nonempty_list (fetch_value w user_input) then
      try_except (summarize_articles w (fetch_value w user_input)) (mret generic_failure) st1
    else (st1, Ret no_results).
Proof.
  intros Hs. unfold chatbot_response, chatbot_body, search_branch.
  rewrite Hs. erewrite run_bind_ret; [| apply run_log].
  unfold try_except at 1. erewrite run_bind_ret; [| apply fetch_from_tavily_run].
  rewrite add_trace_app. cbn [app].
  erewrite run_bind_ret; [| reflexivity].
  erewrite run_bind_ret; [| reflexivity].
  fold (remember_search user_id (fetch_value w user_input)
          (add_trace st [CallChatbot user_input user_id; HttpGet (tavily_url user_input)])).
  destruct (is_nonempty_list (fetch_value w user_input)); [| done].
  unfold try_except. by destruct (summarize_articles _ _ _) as [st' [reply|]].
Qed.

Lemma general_query_run w user_input user_id st :
  general_query w user_input user_id st =
    match chat_reply w user_input with
    | None => (add_trace st [SendMessage user_input], Raise)
    | Some r =>
        match text r with
        | None => (exec (update_memory user_id "last_user_input" (JStr user_input))
                        (add_trace st [SendMessage user_input]), Raise)
        | Some reply => (record_exchange user_id user_input reply
                           (add_trace st [SendMessage user_input]), Ret reply)
        end
    end.
Proof.
  unfold record_exchange. munfold.
  destruct (chat_reply w user_input) as [[[reply|]]|]; done.
Qed.

(** The instruction is sent once, or the loop raises before it is. *)
Lemma summarize_articles_events w v st :
  summarize_articles w v st = (st, Raise) ∨
  ∃ m, summarize_articles w v st =
         (add_trace st [SendMessage m], from_option Ret Raise (chat_reply w m ≫= text)).
Proof.
  unfold summarize_articles.
  destruct (py_slice5 v) as [articles|] eqn:Hv; [| by left].
  erewrite run_bind_ret; [| reflexivity].
  destruct (add_articles summarize_header articles) as [m|] eqn:Hm; [| by left].
  erewrite run_bind_ret; [| reflexivity].
  right. exists m. munfold.
  by destruct (chat_reply w m) as [[[reply|]]|].
Qed.

Lemma is_general_spec user_input user_id st :
  is_general user_input user_id st = true →
  is_search user_input = false ∧
  (is_summarize user_input = true → py_bool (stored_results user_id st) = false).
Proof.
  unfold is_general. destruct (is_search user_input); [done |].
  destruct (is_summarize user_input); [| done].
  by destruct (py_bool _).
Qed.

(** After the two stores are written on the search path nothing writes
    them again in that turn. *)
Lemma chatbot_response_search_stores w user_input user_id st :
  is_search user_input = true →
  same_stores
    (remember_search user_id (fetch_value w user_input)
       (add_trace st [CallChatbot user_input user_id; HttpGet (tavily_url user_input)]))
    (exec (chatbot_response w user_input user_id) st).
Proof.
  intros Hs. unfold exec. rewrite chatbot_response_search by done. cbn zeta.
  destruct (is_nonempty_list _); [| done].
  rewrite try_except_state. apply same_stores_summarize_articles.
Qed.

Lemma record_exchange_run user_id user_input reply st :
  record_exchange user_id user_input reply st =
    State (conversation_memory st ++ [Turn "user" user_input; Turn "assistant" reply])
          (memory_after_update user_id "last_gemini_response" (JStr reply)
             (memory_after_update user_id "last_user_input" (JStr user_input)
                (user_memory st)))
          (tavily_response_memory st) (trace st).
Proof.
  unfold record_exchange, exec.
  erewrite run_bind_ret; [| apply update_memory_run].
  erewrite run_bind_ret; [| apply update_memory_run].
  munfold. simpl. by rewrite <- app_assoc.
Qed.

(** The general-query path, outcome by outcome. *)
Lemma chatbot_response_general_run w user_input user_id st :
  is_general user_input user_id st = true →
  chatbot_response w user_input user_id st =
    let st1 := add_trace st [CallChatbot user_input user_id; SendMessage user_input] in
    match chat_reply w user_input with
    | None => (st1, Ret generic_failure)
    | Some r =>
        match text r with
        | None => (exec (update_memory user_id "last_user_input" (JStr user_input)) st1,
                   Ret generic_failure)
        | Some reply => (record_exchange user_id user_input reply st1, Ret reply)
        end
    end.
Proof.
  intros [Hs Hb]%is_general_spec.
  rewrite chatbot_response_general by done.
  erewrite run_bind_ret; [| apply run_log].
  unfold try_except. rewrite general_query_run, add_trace_app. cbn [app].
  by destruct (chat_reply w user_input) as [[[reply|]]|].
Qed.

(** X7. On the search path the value the search client returned is what
    both stores hold for the user when the turn ends, whatever the value
    is and whatever happens to the instruction afterwards. *)
Theorem search_fills_both_stores w user_input user_id st v :
  is_search user_input = true →
  eval (fetch_from_tavily w user_input) st = Ret v →
  stored_results user_id (exec (chatbot_response w user_input user_id) st) = v ∧
  eval (get_user_memory user_id "last_tavily_response")
       (exec (chatbot_response w user_input user_id) st) = Ret v.
Proof.
  intros Hs <-%fetch_value_of_eval.
  destruct (chatbot_response_search_stores w user_input user_id st Hs) as [Hum Htrm].
  split.
  - unfold stored_results. rewrite Htrm. apply remember_search_stored.
  - erewrite get_user_memory_reads_user_memory by exact Hum.
    apply remember_search_user_memory.
Qed.

(** X8. A turn for one user leaves every other user's stored search
    results and memory entries as they were. *)
Theorem chatbot_response_other_users w user_input user_id st other key :
  other ≠ user_id →
  stored_results other (exec (chatbot_response w user_input user_id) st) =
    stored_results other st ∧
  eval (get_user_memory other key) (exec (chatbot_response w user_input user_id) st) =
    eval (get_user_memory other key) st.
Proof.
  intros Hne.
  destruct (others_untouched_chatbot_response w user_input user_id st other Hne)
    as [Hum Htrm].
  unfold stored_results, eval, get_user_memory, exec. simpl.
  by rewrite Hum, Htrm.
Qed.

(** X9. A general query that gets a reply records the text under
    "last_user_input" and the reply under "last_gemini_response", and
    leaves the stored search results alone. *)
Theorem general_query_records_exchange w user_input user_id st reply :
  is_general user_input user_id st = true →
  chat_reply w user_input ≫= text = Some reply →
  eval (get_user_memory user_id "last_user_input")
       (exec (chatbot_response w user_input user_id) st) = Ret (JStr user_input) ∧
  eval (get_user_memory user_id "last_gemini_response")
       (exec (chatbot_response w user_input user_id) st) = Ret (JStr reply) ∧
  tavily_response_memory (exec (chatbot_response w user_input user_id) st) =
    tavily_response_memory st.
Proof.
  intros Hg Hc. unfold exec. rewrite chatbot_response_general_run by done. cbn zeta.
  destruct (chat_reply w user_input) as [[[t|]]|]; simplify_eq/=.
  rewrite record_exchange_run. unfold eval, get_user_memory, memory_after_update. simpl.
  rewrite !lookup_insert_eq. simpl. rewrite !lookup_insert_eq.
  by rewrite lookup_insert_ne, lookup_insert_eq.
Qed.

(** X10. When the chat session raises on a general query nothing is
    recorded: the state is the old one with the call and the message in
    its trace, and the reply is the generic failure string. *)
Theorem general_query_send_raises w user_input user_id st :
  is_general user_input user_id st = true →
  chat_reply w user_input = None →
  chatbot_response w user_input user_id st =
    (add_trace st [CallChatbot user_input user_id; SendMessage user_input],
     Ret generic_failure).
Proof.
  intros Hg Hc. rewrite chatbot_response_general_run by done. by rewrite Hc.
Qed.

(** X11. When the chat session answers a general query with a response
    that has no text, the turn stops half-way: "last_user_input" already
    holds the new text, while "last_gemini_response", the history and the
    stored search results are as before; the reply is the generic failure
    string. *)
Theorem general_query_reply_without_text w user_input user_id st r :
  is_general user_input user_id st = true →
  chat_reply w user_input = Some r →
  text r = None →
  eval (chatbot_response w user_input user_id) st = Ret generic_failure ∧
  eval (get_user_memory user_id "last_user_input")
       (exec (chatbot_response w user_input user_id) st) = Ret (JStr user_input) ∧
  eval (get_user_memory user_id "last_gemini_response")
       (exec (chatbot_response w user_input user_id) st) =
    eval (get_user_memory user_id "last_gemini_response") st ∧
  conversation_memory (exec (chatbot_response w user_input user_id) st) =
    conversation_memory st ∧
  tavily_response_memory (exec (chatbot_response w user_input user_id) st) =
    tavily_response_memory st.
Proof.
  intros Hg Hc Ht. unfold exec at 1 2 3 4, eval at 1.
  rewrite chatbot_response_general_run by done. cbn zeta. rewrite Hc, Ht. cbn [fst snd].
  split; [done |]. split; [apply get_after_update |].
  split; [by rewrite get_after_update_other |]. done.
Qed.

Lemma remember_search_frame user_id v st :
  trace (remember_search user_id v st) = trace st ∧
  conversation_memory (remember_search user_id v st) = conversation_memory st.
Proof. done. Qed.

(** What a dispatcher turn adds to the trace. *)
Lemma chatbot_response_shape w user_input user_id st :
  ∃ es, trace (exec (chatbot_response w user_input user_id) st) =
          trace st ++ CallChatbot user_input user_id :: es ∧
        turn_events user_input es.
Proof.
  unfold turn_events, exec.
  destruct (is_search user_input) eqn:Hs.
  - rewrite chatbot_response_search by done. cbn zeta.
    destruct (is_nonempty_list _).
    + rewrite try_except_state.
      destruct (summarize_articles_events w (fetch_value w user_input)
                  (remember_search user_id (fetch_value w user_input)
                     (add_trace st [CallChatbot user_input user_id;
                                    HttpGet (tavily_url user_input)])))
        as [-> | [m ->]].
      * eexists. split; [reflexivity | by left].
      * eexists. split; [| right; by exists m]. simpl. by rewrite <- app_assoc.
    + eexists. split; [reflexivity | by left].
  - destruct (is_general user_input user_id st) eqn:Hg.
    + rewrite chatbot_response_general_run by done. cbn zeta.
      exists [SendMessage user_input]. split; [| right; by eexists].
      destruct (chat_reply w user_input) as [[[reply|]]|];
        by rewrite ?record_exchange_run.
    + unfold is_general in Hg. rewrite Hs in Hg. simpl in Hg.
      apply negb_false_iff, andb_true_iff in Hg as [Hz Hb].
      rewrite chatbot_response_summarize by done.
      erewrite run_bind_ret; [| apply run_log]. rewrite try_except_state.
      destruct (summarize_articles_events w (stored_results user_id st)
                  (add_trace st [CallChatbot user_input user_id])) as [-> | [m ->]].
      * exists []. split; [done | by left].
      * exists [SendMessage m]. split; [| right; by exists m].
        simpl. by rewrite <- app_assoc.
Qed.

(** Off the general-query path the history stays as it is. *)
Lemma chatbot_response_keeps_history w user_input user_id st :
  is_general user_input user_id st = false →
  conversation_memory (exec (chatbot_response w user_input user_id) st) =
    conversation_memory st.
Proof.
  intros Hg. unfold is_general in Hg. unfold exec.
  destruct (is_search user_input) eqn:Hs.
  - rewrite chatbot_response_search by done. cbn zeta.
    destruct (is_nonempty_list _); [| done].
    rewrite try_except_state. by rewrite same_history_summarize_articles.
  - simpl in Hg. apply negb_false_iff, andb_true_iff in Hg as [Hz Hb].
    rewrite chatbot_response_summarize by done.
    erewrite run_bind_ret; [| apply run_log]. rewrite try_except_state.
    by rewrite same_history_summarize_articles.
Qed.

(** What a dispatcher turn does to the history: nothing, or the text and
    its reply at the end. *)
Lemma chatbot_response_history w user_input user_id st :
  conversation_memory (exec (chatbot_response w user_input user_id) st) =
    conversation_memory st ∨
  ∃ reply,
    eval (chatbot_response w user_input user_id) st = Ret reply ∧
    conversation_memory (exec (chatbot_response w user_input user_id) st) =
      conversation_memory st ++ [Turn "user" user_input; Turn "assistant" reply].
Proof.
  destruct (is_general user_input user_id st) eqn:Hg.
  - unfold exec, eval. rewrite chatbot_response_general_run by done. cbn zeta.
    destruct (chat_reply w user_input) as [[[reply|]]|]; [| by left ..].
    right. exists reply. cbn [fst snd text]. by rewrite record_exchange_run.
  - left. by apply chatbot_response_keeps_history.
Qed.

(** ** Further properties: the UI shell *)

Lemma is_exit_nonempty user_input : is_exit user_input = true → str_nonempty user_input = true.
Proof. by destruct user_input. Qed.

Lemma handle_user_input_exit w user_input st :
  is_exit user_input = true →
  handle_user_input w user_input st = (add_trace st [StWrite goodbye; StStop], Ret ()).
Proof.
  intros He. unfold handle_user_input. rewrite He.
  munfold. simpl. by rewrite <- app_assoc.
Qed.

Lemma handle_user_input_dispatch w user_input st :
  is_exit user_input = false →
  str_nonempty user_input = true →
  ∃ reply,
    eval (chatbot_response w user_input "user_1") st = Ret reply ∧
    handle_user_input w user_input st =
      (add_trace (exec (chatbot_response w user_input "user_1") st)
                 [StWrite (chatbot_prefix +:+ reply)], Ret ()).
Proof.
  intros He Hne.
  destruct (chatbot_response_returns w user_input "user_1" st) as (st1 & reply & Hrun).
  exists reply. unfold handle_user_input, eval, exec. rewrite He, Hne.
  erewrite run_bind_ret; [| exact Hrun]. by rewrite Hrun.
Qed.

Lemma handle_user_input_empty w user_input st :
  str_nonempty user_input = false →
  handle_user_input w user_input st = (st, Ret ()).
Proof.
  intros Hne. unfold handle_user_input.
  destruct (is_exit user_input) eqn:He; [| by rewrite Hne].
  apply is_exit_nonempty in He. congruence.
Qed.

Lemma paired_app l l' : paired l → paired l' → paired (l ++ l').
Proof. intros Hl Hl'. induction Hl; simpl; [done | by constructor]. Qed.


(** What a turn of the UI does to the history. *)
Lemma handle_user_input_history w user_input st :
  ∃ extra,
    (extra = [] ∨ ∃ reply, extra = [Turn "user" user_input; Turn "assistant" reply]) ∧
    conversation_memory (exec (handle_user_input w user_input) st) =
      conversation_memory st ++ extra.
Proof.
  unfold exec.
  destruct (str_nonempty user_input) eqn:Hne;
    [| exists []; rewrite handle_user_input_empty, app_nil_r by done; auto].
  destruct (is_exit user_input) eqn:He;
    [exists []; rewrite handle_user_input_exit, app_nil_r by done; auto |].
  destruct (handle_user_input_dispatch w user_input st He Hne) as (reply & _ & ->).
  cbn [fst add_trace conversation_memory].
  destruct (chatbot_response_history w user_input "user_1" st) as [-> | (r & _ & ->)].
  - exists []. rewrite app_nil_r. auto.
  - eexists. split; [right; by eexists | done].
Qed.

(** X12. A turn of the UI never removes or edits a stored turn: it leaves
    the history alone or appends the text and then its reply.  The history
    given to [start_chat] at the next run grows in step, each new entry
    with its text as the single part. *)
Theorem turn_appends_to_history w user_input st :
  ∃ extra,
    (extra = [] ∨ ∃ reply, extra = [Turn "user" user_input; Turn "assistant" reply]) ∧
    conversation_memory (exec (handle_user_input w user_input) st) =
      conversation_memory st ++ extra ∧
    formatted_history (conversation_memory (exec (handle_user_input w user_input) st)) =
      formatted_history (conversation_memory st) ++ formatted_history extra.
Proof.
  destruct (handle_user_input_history w user_input st) as (extra & Hextra & Hcm).
  exists extra. split; [done |]. split; [done |].
  unfold formatted_history. by rewrite Hcm, fmap_app.
Qed.

(** X13. The history stays a sequence of user turns each followed by its
    assistant turn: a turn of the UI keeps that shape. *)
Theorem handle_user_input_keeps_pairs w user_input st :
  paired (conversation_memory st) →
  paired (conversation_memory (exec (handle_user_input w user_input) st)).
Proof.
  intros Hp.
  destruct (handle_user_input_history w user_input st) as (extra & Hextra & ->).
  apply paired_app; [done |].
  destruct Hextra as [-> | [reply ->]]; repeat constructor.
Qed.

(** X14. A dispatcher turn keeps the trace it found and adds, after its
    own call: one HTTP request exactly when the text contains "search" or
    "find", at most one message to the chat session, and no write to the
    page. *)
Theorem dispatcher_outbound_calls w user_input user_id st :
  ∃ es,
    trace (exec (chatbot_response w user_input user_id) st) = trace st ++ es ∧
    length (List.filter is_http_get es) = (if is_search user_input then 1 else 0) ∧
    length (List.filter is_send_message es) ≤ 1 ∧
    List.filter is_st_write es = [].
Proof.
  destruct (chatbot_response_shape w user_input user_id st) as (es & Ht & Hes).
  exists (CallChatbot user_input user_id :: es). split; [done |].
  unfold turn_events in Hes.
  destruct (is_search user_input); destruct Hes as [-> | [m ->]]; simpl; auto.
Qed.


(** ** Further properties: searches and what follows them *)

Lemma chatbot_response_search_stored w user_input user_id st :
  is_search user_input = true →
  stored_results user_id (exec (chatbot_response w user_input user_id) st) =
    fetch_value w user_input.
Proof.
  intros Hs.
  destruct (chatbot_response_search_stores w user_input user_id st Hs) as [_ Htrm].
  unfold stored_results. rewrite Htrm. apply remember_search_stored.
Qed.

Lemma summarize_articles_take w l st :
  summarize_articles w (JList l) st = summarize_articles w (JList (take 5 l)) st.
Proof. unfold summarize_articles, py_slice5. by rewrite take_idemp. Qed.

Lemma add_articles_raises message (l : list json) x :
  x ∈ l → (∀ d, x ≠ JDict d) → add_articles message l = Raise.
Proof.
  intros Hx Hd. revert message. induction l as [|y l IH]; intros message.
  - by apply elem_of_nil in Hx.
  - apply elem_of_cons in Hx as [<- | Hx].
    + destruct x; try done. by destruct (Hd d).
    + cbn [add_articles]. destruct (article_line y) as [line|]; [| done].
      apply IH, Hx.
Qed.

Lemma summarize_articles_not_list w v st :
  py_bool v = true → (∀ l, v ≠ JList l) → summarize_articles w v st = (st, Raise).
Proof.
  intros Hb Hl. destruct v; try done.
  - by apply summarize_articles_string.
  - by destruct (Hl l).
Qed.

(** Stored hits are summarized the way fresh ones are. *)
Lemma chatbot_response_stored_hits w user_input user_id st (hits : list hit) :
  is_search user_input = false →
  is_summarize user_input = true →
  stored_results user_id st = JList (JDict <$> hits) →
  hits ≠ [] →
  chatbot_response w user_input user_id st =
    (add_trace st [CallChatbot user_input user_id;
                   SendMessage (instruction (listed_pairs hits))],
     Ret (default generic_failure (chat_reply w (instruction (listed_pairs hits)) ≫= text))).
Proof.
  intros Hs Hz Hst Hne.
  rewrite chatbot_response_summarize; [| done | done | rewrite Hst; by destruct hits].
  erewrite run_bind_ret; [| apply run_log].
  unfold try_except. rewrite Hst, summarize_articles_hits, add_trace_app.
  by destruct (chat_reply w _ ≫= text).
Qed.

(** X16. After a search that returned hits, a text with "summarize" and
    no search keyword sends the chat session the very instruction the
    search sent, built from the stored hits, and returns the reply to it
    (the generic failure string when there is none). *)
Theorem summarize_replays_search w1 w2 query user_input user_id st (hits : list hit) :
  is_search query = true →
  eval (fetch_from_tavily w1 query) st = Ret (JList (JDict <$> hits)) →
  hits ≠ [] →
  is_search user_input = false →
  is_summarize user_input = true →
  trace (exec (chatbot_response w1 query user_id) st) =
    trace st ++ [CallChatbot query user_id; HttpGet (tavily_url query);
                 SendMessage (instruction (listed_pairs hits))] ∧
  chatbot_response w2 user_input user_id (exec (chatbot_response w1 query user_id) st) =
    (add_trace (exec (chatbot_response w1 query user_id) st)
       [CallChatbot user_input user_id; SendMessage (instruction (listed_pairs hits))],
     Ret (default generic_failure
            (chat_reply w2 (instruction (listed_pairs hits)) ≫= text))).
Proof.
  intros Hq Hv%fetch_value_of_eval Hne Hs Hz. split.
  - unfold exec. rewrite chatbot_response_search by done. cbn zeta. rewrite Hv.
    assert (is_nonempty_list (JList (JDict <$> hits)) = true) as -> by (by destruct hits).
    rewrite try_except_state, summarize_articles_hits. simpl. by rewrite <- !app_assoc.
  - apply chatbot_response_stored_hits; [done | done | | done].
    by rewrite chatbot_response_search_stored.
Qed.

(** X17. A search that comes back with an empty list stores that list;
    a later "summarize" text (without a search keyword) then finds nothing
    usable and is sent to the chat session as it is, as a general query. *)
Theorem summarize_after_empty_search w1 w2 query user_input user_id st :
  is_search query = true →
  eval (fetch_from_tavily w1 query) st = Ret (JList []) →
  is_search user_input = false →
  is_summarize user_input = true →
  eval (chatbot_response w1 query user_id) st = Ret no_results ∧
  stored_results user_id (exec (chatbot_response w1 query user_id) st) = JList [] ∧
  trace (exec (chatbot_response w2 user_input user_id)
              (exec (chatbot_response w1 query user_id) st)) =
    trace (exec (chatbot_response w1 query user_id) st) ++
    [CallChatbot user_input user_id; SendMessage user_input].
Proof.
  intros Hq Hv%fetch_value_of_eval Hs Hz.
  pose proof (chatbot_response_search_stored w1 query user_id st Hq) as Hst.
  rewrite Hv in Hst. split; [| split; [done |]].
  - unfold eval. rewrite chatbot_response_search by done. cbn zeta. by rewrite Hv.
  - unfold exec at 1. rewrite chatbot_response_general_run
      by (unfold is_general; by rewrite Hs, Hz, Hst).
    cbn zeta. destruct (chat_reply w2 user_input) as [[[reply|]]|];
      by rewrite ?record_exchange_run.
Qed.

(** X18. Stored results that count as true without being a list (a
    string, a number, an object, [True]) make every "summarize" text fail:
    the loop raises before anything is sent and the reply is the generic
    failure string. *)
Theorem summarize_of_stored_non_list w user_input user_id st :
  is_search user_input = false →
  is_summarize user_input = true →
  py_bool (stored_results user_id st) = true →
  (∀ l, stored_results user_id st ≠ JList l) →
  chatbot_response w user_input user_id st =
    (add_trace st [CallChatbot user_input user_id], Ret generic_failure).
Proof.
  intros Hs Hz Hb Hl. rewrite chatbot_response_summarize by done.
  erewrite run_bind_ret; [| apply run_log].
  unfold try_except. by rewrite summarize_articles_not_list.
Qed.

(** X19. Only the first five results are looked at: when these are
    objects the instruction is built from them and sent, whatever follows
    them in the list. *)
Theorem search_ignores_results_past_five w user_input user_id st (hits : list hit) rest :
  is_search user_input = true →
  eval (fetch_from_tavily w user_input) st = Ret (JList ((JDict <$> hits) ++ rest)) →
  length hits = 5 →
  trace (exec (chatbot_response w user_input user_id) st) =
    trace st ++ [CallChatbot user_input user_id; HttpGet (tavily_url user_input);
                 SendMessage (instruction (title_url <$> hits))] ∧
  eval (chatbot_response w user_input user_id) st =
    Ret (default generic_failure
           (chat_reply w (instruction (title_url <$> hits)) ≫= text)).
Proof.
  intros Hs Hv%fetch_value_of_eval Hn. unfold exec, eval.
  rewrite chatbot_response_search by done. cbn zeta. rewrite Hv.
  assert (is_nonempty_list (JList ((JDict <$> hits) ++ rest)) = true) as ->
    by (by destruct hits).
  unfold try_except.
  rewrite summarize_articles_take, take_app_length' by (by rewrite length_fmap).
  rewrite summarize_articles_hits.
  assert (listed_pairs hits = title_url <$> hits) as ->
    by (unfold listed_pairs; apply take_ge; rewrite length_fmap; lia).
  destruct (chat_reply w _ ≫= text); simpl; by rewrite <- !app_assoc.
Qed.

(** X20. When one of the first five results is not an object the loop
    raises: nothing is sent to the chat session and the reply is the
    generic failure string, while the results stay stored for the user. *)
Theorem search_result_not_object w user_input user_id st l x :
  is_search user_input = true →
  eval (fetch_from_tavily w user_input) st = Ret (JList l) →
  x ∈ take 5 l →
  (∀ d, x ≠ JDict d) →
  chatbot_response w user_input user_id st =
    (remember_search user_id (JList l)
       (add_trace st [CallChatbot user_input user_id; HttpGet (tavily_url user_input)]),
     Ret generic_failure).
Proof.
  intros Hs Hv%fetch_value_of_eval Hx Hd. rewrite chatbot_response_search by done. cbn zeta. rewrite Hv.
  assert (is_nonempty_list (JList l) = true) as ->
    by (destruct l; [by apply elem_of_nil in Hx | done]).
  unfold try_except, summarize_articles, py_slice5.
  erewrite run_bind_ret; [| reflexivity].
  erewrite run_bind_raise; [done |].
  unfold lift. by erewrite add_articles_raises.
Qed.

(** ** Further properties: the routing tests *)

Lemma prefix_spec sub s : String.prefix sub s = true ↔ ∃ post, s = sub +:+ post.
Proof.
  revert s. induction sub as [|a sub IH]; intros s.
  - split; [by exists s | by destruct s].
  - destruct s as [|b s]; simpl.
    + split; [done | by intros [post ?]].
    + destruct (ascii_dec a b) as [-> | Hab].
      * rewrite IH. split; intros [post Hpost]; exists post.
        -- change (String b s = String b (sub +:+ post)). by rewrite Hpost.
        -- change (String b s = String b (sub +:+ post)) in Hpost. congruence.
      * split; [done |]. intros [post Hpost].
        change (String b s = String a (sub +:+ post)) in Hpost. congruence.
Qed.

Lemma str_in_spec sub s : str_in sub s = true ↔ ∃ pre post, s = pre +:+ sub +:+ post.
Proof.
  induction s as [|c s IH]; cbn [str_in].
  - rewrite prefix_spec. split.
    + intros [post Hpost]. by exists EmptyString, post.
    + intros ([|c pre] & post & Hpre); [by exists post | done].
  - rewrite orb_true_iff, prefix_spec, IH. split.
    + intros [[post Hpost] | (pre & post & Hpre)].
      * by exists EmptyString, post.
      * exists (String c pre), post.
        change (String c s = String c (pre +:+ sub +:+ post)). by rewrite Hpre.
    + intros ([|c' pre] & post & Hpre).
      * left. by exists post.
      * right. exists pre, post.
        change (String c s = String c' (pre +:+ sub +:+ post)) in Hpre. congruence.
Qed.

Lemma lower_ascii_idemp c : lower_ascii (lower_ascii c) = lower_ascii c.
Proof. by destruct c as [[] [] [] [] [] [] [] []]. Qed.

Lemma lower_idemp s : lower (lower s) = lower s.
Proof. induction s as [|c s IH]; simpl; [done | by rewrite lower_ascii_idemp, IH]. Qed.

(** X21. The search path is taken exactly when the lowercased text has
    "search" or "find" somewhere inside it, and the summarize test holds
    exactly when it has "summarize" inside it: the keywords match inside
    longer words too. *)
Theorem routing_is_substring_match user_input :
  (is_search user_input = true ↔
     ∃ pre post, lower user_input = pre +:+ "search" +:+ post ∨
                 lower user_input = pre +:+ "find" +:+ post) ∧
  (is_summarize user_input = true ↔
     ∃ pre post, lower user_input = pre +:+ "summarize" +:+ post).
Proof.
  unfold is_search, is_summarize. rewrite orb_true_iff, !str_in_spec. split; [| done].
  split.
  - intros [(pre & post & H) | (pre & post & H)]; exists pre, post; auto.
  - intros (pre & post & [H | H]); [left | right]; by exists pre, post.
Qed.

(** X22. The three routing tests do not see letter case: a text and its
    lowercased form are routed alike. *)
Theorem routing_ignores_case user_input :
  is_search (lower user_input) = is_search user_input ∧
  is_summarize (lower user_input) = is_summarize user_input ∧
  is_exit (lower user_input) = is_exit user_input.
Proof.
  unfold is_search, is_summarize, is_exit. by rewrite lower_idemp.
Qed.

(** ** Further properties: the two copies of the search results *)

Lemma general_path_keeps_copies w user_input user_id st :
  is_general user_input user_id st = true →
  eval (get_user_memory user_id "last_tavily_response")
       (exec (chatbot_response w user_input user_id) st) =
    eval (get_user_memory user_id "last_tavily_response") st ∧
  stored_results user_id (exec (chatbot_response w user_input user_id) st) =
    stored_results user_id st.
Proof.
  intros Hg. unfold exec at 1 2. rewrite chatbot_response_general_run by done. cbn zeta.
  destruct (chat_reply w user_input) as [[[reply|]]|]; cbn [fst text]; [| | done].
  - rewrite record_exchange_run. split; [| done].
    unfold eval, get_user_memory, memory_after_update. simpl.
    rewrite !lookup_insert_eq. simpl.
    by rewrite lookup_insert_ne, lookup_insert_ne.
  - split; [| done]. by rewrite get_after_update_other.
Qed.

Lemma summarize_path_keeps_copies w user_input user_id st :
  is_search user_input = false →
  is_general user_input user_id st = false →
  same_stores st (exec (chatbot_response w user_input user_id) st).
Proof.
  intros Hs Hg. unfold is_general in Hg. rewrite Hs in Hg. simpl in Hg.
  apply negb_false_iff, andb_true_iff in Hg as [Hz Hb].
  unfold exec. rewrite chatbot_response_summarize by done.
  erewrite run_bind_ret; [| apply run_log]. rewrite try_except_state.
  apply (same_stores_summarize_articles w (stored_results user_id st)
           (add_trace st [CallChatbot user_input user_id])).
Qed.

(** X23. The two copies of a user's last search results stay the same
    value: if they agree for a user before a dispatcher turn, for that user
    or for another, they agree after it. *)
Theorem chatbot_response_keeps_copies_equal w user_input user_id st user :
  stores_agree user st →
  stores_agree user (exec (chatbot_response w user_input user_id) st).
Proof.
  unfold stores_agree. intros Hagree.
  destruct (decide (user = user_id)) as [-> | Hne].
  - destruct (is_search user_input) eqn:Hs.
    + destruct (chatbot_response_search_stores w user_input user_id st Hs) as [Hum Htrm].
      erewrite get_user_memory_reads_user_memory by exact Hum.
      rewrite remember_search_user_memory. f_equal.
      unfold stored_results. rewrite Htrm. symmetry. apply remember_search_stored.
    + destruct (is_general user_input user_id st) eqn:Hg.
      * destruct (general_path_keeps_copies w user_input user_id st Hg) as [-> ->]. done.
      * destruct (summarize_path_keeps_copies w user_input user_id st Hs Hg) as [Hum Htrm].
        erewrite get_user_memory_reads_user_memory by exact Hum.
        unfold stored_results. by rewrite Htrm.
  - destruct (others_untouched_chatbot_response w user_input user_id st user Hne)
      as [Hum Htrm].
    unfold stored_results, eval, get_user_memory, exec in *. simpl in *.
    by rewrite Hum, Htrm.
Qed.

End Script.

(** ** The properties at concrete inputs *)

(** The scenario of the specification: two hits, both listed, the reply
    returned as it came. *)
Example search_climate_change :
  let '(st, reply) := chatbot_response key0 repr0 (w_hits two_hits)
                        "search climate change" "user_1" st0 in
  trace st =
    [CallChatbot "search climate change" "user_1";
     HttpGet "https://api.tavily.com/search?query=search climate change&apikey=KEY";
     SendMessage ("Summarize the following articles:" +:+ nl +:+
                  "Title: A, Link: u1" +:+ nl +:+ "Title: B, Link: u2" +:+ nl)] ∧
  reply = Ret ("reply to: Summarize the following articles:" +:+ nl +:+
               "Title: A, Link: u1" +:+ nl +:+ "Title: B, Link: u2" +:+ nl) ∧
  conversation_memory st = [] ∧
  tavily_response_memory st !! "user_1" = Some (JList (JDict <$> two_hits)).
Proof. vm_compute. done. Qed.

(** Of seven hits the first five are listed. *)
Example search_seven_hits :
  let hits := (λ n, [("title", JInt n); ("url", JStr "u")]) <$> [1; 2; 3; 4; 5; 6; 7]%Z in
  listed_pairs repr0 hits = replicate 5 ("<value>", "u").
Proof. vm_compute. done. Qed.

(** A hit without a title or a link gets the two defaults. *)
Example hit_defaults : title_url repr0 [] = ("No Title", "No URL").
Proof. done. Qed.

(** An element of the results that is not a JSON object has no [get]: the
    loop raises and the dispatcher answers with the generic failure. *)
Example search_result_not_an_object :
  let w := {| requests_get := λ _,
                Some {| status_code := 200;
                        json_body := Some (JDict [("results", JList [JStr "x"])]) |};
              chat_reply := λ _, None |} in
  chatbot_response key0 repr0 w "find x" "user_1" st0 =
    (remember_search "user_1" (JList [JStr "x"])
       (add_trace st0 [CallChatbot "find x" "user_1";
                       HttpGet "https://api.tavily.com/search?query=find x&apikey=KEY"]),
     Ret generic_failure).
Proof. vm_compute. done. Qed.

(** The exit check folds case and compares whole texts. *)
Example exit_check_examples :
  is_exit "Q" = true ∧ is_exit "exit" = true ∧ is_exit "QUIT" = true ∧
  is_exit "quit now" = false ∧ is_exit "" = false.
Proof. vm_compute. done. Qed.

Lemma search_instruction_lists_hits_witness :
  length (listed_pairs repr0 two_hits) = min (length two_hits) 5 ∧
  (∀ i, i < min (length two_hits) 5 →
        listed_pairs repr0 two_hits !! i = title_url repr0 <$> two_hits !! i) ∧
  trace (exec (chatbot_response key0 repr0 (w_hits two_hits)
                 "search climate change" "user_1") st0) =
    trace st0 ++ [CallChatbot "search climate change" "user_1";
                  HttpGet (tavily_url key0 "search climate change");
                  SendMessage (instruction (listed_pairs repr0 two_hits))] ∧
  eval (chatbot_response key0 repr0 (w_hits two_hits)
          "search climate change" "user_1") st0 =
    Ret ("reply to: " +:+ instruction (listed_pairs repr0 two_hits)).
Proof.
  apply (search_instruction_lists_hits key0 repr0 (w_hits two_hits)
           "search climate change" "user_1" st0
           {| status_code := 200;
              json_body := Some (JDict [("results", JList (JDict <$> two_hits))]) |}
           [("results", JList (JDict <$> two_hits))] two_hits);
    [reflexivity | reflexivity | reflexivity | reflexivity | reflexivity
    | simpl; lia].
Defined.

Lemma search_without_hits_no_results_witness :
  eval (chatbot_response key0 repr0 w_down "search news" "user_1") st0 = Ret no_results ∧
  trace (exec (chatbot_response key0 repr0 w_down "search news" "user_1") st0) =
    trace st0 ++ [CallChatbot "search news" "user_1"; HttpGet (tavily_url key0 "search news")].
Proof.
  apply (search_without_hits_no_results key0 repr0 w_down "search news" "user_1" st0);
    [reflexivity | right; left; reflexivity].
Defined.

Lemma summarize_without_results_falls_through_witness :
  chatbot_response key0 repr0 w_down "Summarize it" "user_1" st0 =
    (log (CallChatbot "Summarize it" "user_1");;
     try_except (general_query w_down "Summarize it" "user_1") (mret generic_failure)) st0 ∧
  trace (exec (chatbot_response key0 repr0 w_down "Summarize it" "user_1") st0) =
    trace st0 ++ [CallChatbot "Summarize it" "user_1"; SendMessage "Summarize it"] ∧
  eval (chatbot_response key0 repr0 w_down "Summarize it" "user_1") st0 =
    Ret (default generic_failure (chat_reply w_down "Summarize it" ≫= text)).
Proof.
  apply (summarize_without_results_falls_through key0 repr0 w_down "Summarize it"
           "user_1" st0); reflexivity.
Defined.

Lemma general_query_history_witness :
  eval (chatbot_response key0 repr0 w_down "hello" "user_1") st0 = Ret "reply to: hello" ∧
  conversation_memory (exec (chatbot_response key0 repr0 w_down "hello" "user_1") st0) =
    conversation_memory st0 ++ [Turn "user" "hello"; Turn "assistant" "reply to: hello"] ∧
  length (conversation_memory
            (exec (chatbot_response key0 repr0 w_down "hello" "user_1") st0)) =
    length (conversation_memory st0) + 2.
Proof.
  apply (general_query_history key0 repr0 w_down "hello" "user_1" st0 "reply to: hello");
    reflexivity.
Defined.

Lemma search_and_summarize_keep_history_witness :
  conversation_memory
    (exec (chatbot_response key0 repr0 (w_hits two_hits) "Find news" "user_1") st0) =
  conversation_memory st0.
Proof.
  apply (search_and_summarize_keep_history key0 repr0 (w_hits two_hits) "Find news"
           "user_1" st0).
  left; reflexivity.
Defined.

Lemma exit_keyword_only_goodbye_witness :
  handle_user_input key0 repr0 w_down "QUIT" st0 =
    (add_trace st0 [StWrite goodbye; StStop], Ret ()) ∧
  ∀ text user_id,
    CallChatbot text user_id ∉
      drop (length (trace st0)) (trace (exec (handle_user_input key0 repr0 w_down "QUIT") st0)).
Proof.
  apply (exit_keyword_only_goodbye key0 repr0 w_down "QUIT" st0). reflexivity.
Defined.

(** C9 as stated fails: after a failed search, a text that contains
    "summarize" and also "search" is searched again and answered with the
    "no results" message, not with the generic failure string. *)
Lemma summarize_after_failed_search_counterexample :
  ¬ (∀ w1 w2 query user_input user_id st,
       is_search query = true →
       request_fails w1 (tavily_url key0 query) →
       is_summarize user_input = true →
       eval (chatbot_response key0 repr0 w2 user_input user_id)
            (exec (chatbot_response key0 repr0 w1 query user_id) st) =
         Ret generic_failure).
Proof.
  intros H.
  specialize (H w_down w_down "search news" "summarize my search" "user_1" st0
                eq_refl (or_introl eq_refl) eq_refl).
  vm_compute in H. discriminate H.
Qed.

Lemma failed_search_then_summarize_witness :
  eval (chatbot_response key0 repr0 w_500 "search news" "user_1") st0 = Ret no_results ∧
  stored_results "user_1" (exec (chatbot_response key0 repr0 w_500 "search news" "user_1") st0) =
    JStr (failure_string key0 w_500 "search news") ∧
  eval (get_user_memory "user_1" "last_tavily_response")
       (exec (chatbot_response key0 repr0 w_500 "search news" "user_1") st0) =
    Ret (JStr (failure_string key0 w_500 "search news")) ∧
  py_bool (JStr (failure_string key0 w_500 "search news")) = true ∧
  eval (summarize_articles repr0 w_down (JStr (failure_string key0 w_500 "search news")))
       (add_trace (exec (chatbot_response key0 repr0 w_500 "search news" "user_1") st0)
                  [CallChatbot "summarize it" "user_1"]) = Raise ∧
  chatbot_response key0 repr0 w_down "summarize it" "user_1"
      (exec (chatbot_response key0 repr0 w_500 "search news" "user_1") st0) =
    (add_trace (exec (chatbot_response key0 repr0 w_500 "search news" "user_1") st0)
               [CallChatbot "summarize it" "user_1"],
     Ret generic_failure).
Proof.
  apply (failed_search_then_summarize key0 repr0 w_500 w_down "search news"
           "summarize it" "user_1" st0);
    [reflexivity | right; eexists; split; [reflexivity | discriminate]
    | reflexivity | reflexivity].
Defined.

Lemma exit_check_is_equality_witness :
  ∃ st1 reply rest,
    chatbot_response key0 repr0 w_down "quit now" "user_1" st0 = (st1, Ret reply) ∧
    trace st1 = trace st0 ++ CallChatbot "quit now" "user_1" :: rest ∧
    handle_user_input key0 repr0 w_down "quit now" st0 =
      (add_trace st1 [StWrite (chatbot_prefix +:+ reply)], Ret ()).
Proof.
  apply (exit_check_is_equality key0 repr0 w_down "quit now" st0 "quit");
    [unfold exit_keywords; rewrite !elem_of_cons; auto | reflexivity | reflexivity].
Defined.

(** ** The further properties at concrete inputs *)

Lemma update_memory_frame_witness :
  eval (update_memory "user_1" "last_user_input" (JStr "hi");;
        get_user_memory "user_1" "last_gemini_response") st0 =
    eval (get_user_memory "user_1" "last_gemini_response") st0 ∧
  conversation_memory (exec (update_memory "user_1" "last_user_input" (JStr "hi")) st0) =
    conversation_memory st0 ∧
  tavily_response_memory (exec (update_memory "user_1" "last_user_input" (JStr "hi")) st0) =
    tavily_response_memory st0 ∧
  trace (exec (update_memory "user_1" "last_user_input" (JStr "hi")) st0) = trace st0.
Proof.
  apply (update_memory_frame "user_1" "last_user_input" (JStr "hi")
           "user_1" "last_gemini_response" st0).
  discriminate.
Defined.

Lemma fetch_bad_body_witness :
  eval (fetch_from_tavily key0 w_bad_body "search news") st0 = Ret (JStr tavily_error).
Proof.
  apply (fetch_bad_body key0 w_bad_body "search news" st0
           {| status_code := 200; json_body := None |});
    [reflexivity | reflexivity | left; reflexivity].
Defined.

Lemma fetch_returns_results_field_witness :
  eval (fetch_from_tavily key0 (w_results (JInt 7)) "search news") st0 =
    match dict_lookup "results" [("results", JInt 7)] with
    | Some v => Ret v
    | None => Ret (JList [])
    end.
Proof.
  apply (fetch_returns_results_field key0 (w_results (JInt 7)) "search news" st0
           {| status_code := 200; json_body := Some (JDict [("results", JInt 7)]) |});
    reflexivity.
Defined.

Lemma search_fills_both_stores_witness :
  stored_results "user_1"
    (exec (chatbot_response key0 repr0 w_500 "find news" "user_1") st0) =
    JStr (tavily_sorry "find news") ∧
  eval (get_user_memory "user_1" "last_tavily_response")
       (exec (chatbot_response key0 repr0 w_500 "find news" "user_1") st0) =
    Ret (JStr (tavily_sorry "find news")).
Proof.
  apply (search_fills_both_stores key0 repr0 w_500 "find news" "user_1" st0
           (JStr (tavily_sorry "find news"))); reflexivity.
Defined.

Lemma chatbot_response_other_users_witness :
  stored_results "user_2"
    (exec (chatbot_response key0 repr0 (w_hits two_hits) "find news" "user_1") st_number) =
    stored_results "user_2" st_number ∧
  eval (get_user_memory "user_2" "last_user_input")
       (exec (chatbot_response key0 repr0 (w_hits two_hits) "find news" "user_1") st_number) =
    eval (get_user_memory "user_2" "last_user_input") st_number.
Proof.
  apply (chatbot_response_other_users key0 repr0 (w_hits two_hits) "find news" "user_1"
           st_number "user_2" "last_user_input").
  discriminate.
Defined.

Lemma general_query_records_exchange_witness :
  eval (get_user_memory "user_1" "last_user_input")
       (exec (chatbot_response key0 repr0 w_down "hello" "user_1") st0) =
    Ret (JStr "hello") ∧
  eval (get_user_memory "user_1" "last_gemini_response")
       (exec (chatbot_response key0 repr0 w_down "hello" "user_1") st0) =
    Ret (JStr "reply to: hello") ∧
  tavily_response_memory (exec (chatbot_response key0 repr0 w_down "hello" "user_1") st0) =
    tavily_response_memory st0.
Proof.
  apply (general_query_records_exchange key0 repr0 w_down "hello" "user_1" st0
           "reply to: hello"); reflexivity.
Defined.

Lemma general_query_send_raises_witness :
  chatbot_response key0 repr0 w_mute "hello" "user_1" st0 =
    (add_trace st0 [CallChatbot "hello" "user_1"; SendMessage "hello"],
     Ret generic_failure).
Proof.
  apply (general_query_send_raises key0 repr0 w_mute "hello" "user_1" st0); reflexivity.
Defined.

Lemma general_query_reply_without_text_witness :
  eval (chatbot_response key0 repr0 w_no_text "hello" "user_1") st0 = Ret generic_failure ∧
  eval (get_user_memory "user_1" "last_user_input")
       (exec (chatbot_response key0 repr0 w_no_text "hello" "user_1") st0) =
    Ret (JStr "hello") ∧
  eval (get_user_memory "user_1" "last_gemini_response")
       (exec (chatbot_response key0 repr0 w_no_text "hello" "user_1") st0) =
    eval (get_user_memory "user_1" "last_gemini_response") st0 ∧
  conversation_memory (exec (chatbot_response key0 repr0 w_no_text "hello" "user_1") st0) =
    conversation_memory st0 ∧
  tavily_response_memory (exec (chatbot_response key0 repr0 w_no_text "hello" "user_1") st0) =
    tavily_response_memory st0.
Proof.
  apply (general_query_reply_without_text key0 repr0 w_no_text "hello" "user_1" st0
           {| text := None |}); reflexivity.
Defined.

Lemma handle_user_input_keeps_pairs_witness :
  paired (conversation_memory (exec (handle_user_input key0 repr0 w_down "hello") st0)).
Proof.
  apply (handle_user_input_keeps_pairs key0 repr0 w_down "hello" st0).
  simpl. constructor.
Defined.

Lemma summarize_replays_search_witness :
  trace (exec (chatbot_response key0 repr0 (w_hits two_hits) "search news" "user_1") st0) =
    trace st0 ++ [CallChatbot "search news" "user_1";
                  HttpGet (tavily_url key0 "search news");
                  SendMessage (instruction (listed_pairs repr0 two_hits))] ∧
  chatbot_response key0 repr0 w_mute "summarize it" "user_1"
      (exec (chatbot_response key0 repr0 (w_hits two_hits) "search news" "user_1") st0) =
    (add_trace
       (exec (chatbot_response key0 repr0 (w_hits two_hits) "search news" "user_1") st0)
       [CallChatbot "summarize it" "user_1";
        SendMessage (instruction (listed_pairs repr0 two_hits))],
     Ret (default generic_failure
            (chat_reply w_mute (instruction (listed_pairs repr0 two_hits)) ≫= text))).
Proof.
  apply (summarize_replays_search key0 repr0 (w_hits two_hits) w_mute "search news"
           "summarize it" "user_1" st0 two_hits);
    [reflexivity | reflexivity | discriminate | reflexivity | reflexivity].
Defined.

Lemma summarize_after_empty_search_witness :
  eval (chatbot_response key0 repr0 (w_hits []) "search news" "user_1") st0 =
    Ret no_results ∧
  stored_results "user_1"
    (exec (chatbot_response key0 repr0 (w_hits []) "search news" "user_1") st0) = JList [] ∧
  trace (exec (chatbot_response key0 repr0 w_down "summarize it" "user_1")
              (exec (chatbot_response key0 repr0 (w_hits []) "search news" "user_1") st0)) =
    trace (exec (chatbot_response key0 repr0 (w_hits []) "search news" "user_1") st0) ++
    [CallChatbot "summarize it" "user_1"; SendMessage "summarize it"].
Proof.
  apply (summarize_after_empty_search key0 repr0 (w_hits []) w_down "search news"
           "summarize it" "user_1" st0); reflexivity.
Defined.

Lemma summarize_of_stored_non_list_witness :
  chatbot_response key0 repr0 w_down "summarize it" "user_1" st_number =
    (add_trace st_number [CallChatbot "summarize it" "user_1"], Ret generic_failure).
Proof.
  apply (summarize_of_stored_non_list key0 repr0 w_down "summarize it" "user_1" st_number);
    [reflexivity | reflexivity | reflexivity | intros l; discriminate].
Defined.

Lemma search_ignores_results_past_five_witness :
  trace (exec (chatbot_response key0 repr0
                 (w_results (JList ((JDict <$> five_hits) ++ [JStr "junk"])))
                 "search news" "user_1") st0) =
    trace st0 ++ [CallChatbot "search news" "user_1";
                  HttpGet (tavily_url key0 "search news");
                  SendMessage (instruction (title_url repr0 <$> five_hits))] ∧
  eval (chatbot_response key0 repr0
          (w_results (JList ((JDict <$> five_hits) ++ [JStr "junk"])))
          "search news" "user_1") st0 =
    Ret (default generic_failure
           (chat_reply (w_results (JList ((JDict <$> five_hits) ++ [JStr "junk"])))
                       (instruction (title_url repr0 <$> five_hits)) ≫= text)).
Proof.
  apply (search_ignores_results_past_five key0 repr0
           (w_results (JList ((JDict <$> five_hits) ++ [JStr "junk"])))
           "search news" "user_1" st0 five_hits [JStr "junk"]); reflexivity.
Defined.

Lemma search_result_not_object_witness :
  chatbot_response key0 repr0 (w_results (JList [JDict []; JStr "x"]))
      "search news" "user_1" st0 =
    (remember_search "user_1" (JList [JDict []; JStr "x"])
       (add_trace st0 [CallChatbot "search news" "user_1";
                       HttpGet (tavily_url key0 "search news")]),
     Ret generic_failure).
Proof.
  apply (search_result_not_object key0 repr0 (w_results (JList [JDict []; JStr "x"]))
           "search news" "user_1" st0 [JDict []; JStr "x"] (JStr "x"));
    [reflexivity | reflexivity | simpl; rewrite !elem_of_cons; auto | discriminate].
Defined.

Lemma chatbot_response_keeps_copies_equal_witness :
  stores_agree "user_1"
    (exec (chatbot_response key0 repr0 (w_hits two_hits) "search news" "user_1") st0).
Proof.
  apply (chatbot_response_keeps_copies_equal key0 repr0 (w_hits two_hits) "search news"
           "user_1" st0 "user_1").
  reflexivity.
Defined.
